(** * Agent messaging servers: a shallow embedding and its properties

    Two servers of the repository are embedded here, each in a module
    of its own:

    - [Agents]: the file-based server (presence files under [/tmp],
      delivery through the [snd] helper into a tmux pane);
    - [Nats]: the bus server of [src/index.ts] (every operation is a
      call of the [nats] command-line client).

    A third module, [Ledger], holds the history operations, which the
    repository documents and tests but whose code is not part of the
    sources at hand.

    Conventions of the embedding.
    - A JavaScript string is a [string] of bytes (UTF-8).
    - A value produced by [JSON.parse] is a [json]; [undefined] is the
      [None] of [option json].  Numbers are the integers (a JSON number
      with a fraction is outside the model); an integer stands for the
      double nearest to it and is printed as JavaScript prints that
      double: in decimal up to 2^53, with the fewest digits that denote
      it above, and with an exponent from 10^21 on.
    - [Date.now()], the bytes of [randomBytes] and the behaviour of a
      spawned process are inputs of the functions that use them; the
      calls a function makes are returned next to its result, in the
      order in which they are made.
    - An exception is the [inr] of a sum, or [None] where the source
      only skips or where the error is always the same.  Converting a
      value to a string can throw: an object that [JSON.parse] made with
      a key [toString] has no usable conversion, and a template literal
      on it throws a [TypeError]. *)

From Stdlib Require Import String Ascii List ZArith Lia Bool DecimalString.
From Stdlib.Strings Require Import Byte.
Import ListNotations.

Local Open Scope string_scope.
Local Open Scope Z_scope.

(** ** JavaScript values and strings *)

Module JS.

#[warning="-register-all"] Inductive json : Type :=
| JNull
| JBool (b : bool)
| JNum (n : Z)
| JStr (s : string)
| JArr (items : list json)
| JObj (fields : list (string * json)).

(** A value that may be [undefined]. *)
Definition value : Type := option json.

Definition nl : string := String (ascii_of_nat 10) "".

Definition string_of_nat (n : nat) : string :=
  NilEmpty.string_of_uint (Nat.to_uint n).

Definition string_of_Z (n : Z) : string :=
  NilZero.string_of_int (Z.to_int n).

(** The number that an integer stands for: the double nearest to it,
    as [JSON.parse] reads an integer literal, ties going to the even
    significand.  Below 2^53 every integer is a double; above, a double
    is a significand of 53 bits times a power of two.  The result is
    the significand and the exponent of that power. *)
Definition nearest_double (n : Z) : Z * Z :=
  if n <? 2 ^ 53 then (n, 0)
  else
    let shift := Z.log2 n - 52 in
    let q := Z.shiftr n shift in
    let r := n - Z.shiftl q shift in
    let half := 2 ^ (shift - 1) in
    let q' := if (half <? r) || ((r =? half) && Z.odd q) then q + 1 else q in
    if q' =? 2 ^ 53 then (2 ^ 52, shift + 1) else (q', shift).

(** Whether the number is finite: from 2^1024 on a double is
    [Infinity]. *)
Definition finite (n : Z) : bool :=
  let '(q, shift) := nearest_double (Z.abs n) in
  Z.log2 q + shift <? 1024.

Fixpoint drop_trailing_zeros (s : string) : string :=
  match s with
  | EmptyString => EmptyString
  | String a rest =>
      match drop_trailing_zeros rest with
      | EmptyString => if Ascii.eqb a "0" then EmptyString else String a EmptyString
      | rest' => String a rest'
      end
  end.

(** The search of [Number::toString] for the decimal number of fewest
    digits that denotes the double [d]: for [k] digits, from one on,
    the two multiples of [10 ^ (D - k)] next to [d], where [D] is the
    number of digits of [d]; of two that will do, the closer one, and
    the even one if they are as close.  [low2] and [up2] are twice the
    bounds of the numbers that round to [d]; the bounds are among them
    when the significand is even. *)
Fixpoint shortest (fuel : nat) (k D d low2 up2 : Z) (closed : bool) : Z :=
  match fuel with
  | O => d
  | S fuel' =>
      let unit := 10 ^ (D - k) in
      let c1 := (d / unit) * unit in
      let c2 := c1 + unit in
      let rounds_to_d c :=
        if closed then (low2 <=? 2 * c) && (2 * c <=? up2)
        else (low2 <? 2 * c) && (2 * c <? up2) in
      match rounds_to_d c1, rounds_to_d c2 with
      | true, true =>
          if d - c1 <? c2 - d then c1
          else if c2 - d <? d - c1 then c2
          else if Z.even (d / unit) then c1 else c2
      | true, false => c1
      | false, true => c2
      | false, false =>
          if D - k <=? 0 then d else shortest fuel' (k + 1) D d low2 up2 closed
      end
  end.

(** [Number::toString] of the double nearest to an integer that is not
    negative: the integer itself below 2^53; above, the digits found
    by the search, followed by zeros up to 21 digits in all, and in the
    notation with an exponent beyond. *)
Definition digits_of_double (n : Z) : string :=
  let '(q, shift) := nearest_double n in
  if shift =? 0 then string_of_Z q
  else if 1024 <=? Z.log2 q + shift then "Infinity"
  else
    let d := Z.shiftl q shift in
    let D := Z.of_nat (String.length (string_of_Z d)) in
    let up2 := 2 * d + 2 ^ shift in
    let low2 := if q =? 2 ^ 52 then 2 * d - 2 ^ (shift - 1) else 2 * d - 2 ^ shift in
    let c := shortest 17 1 D d low2 up2 (Z.even q) in
    let n_digits := String.length (string_of_Z c) in
    if (n_digits <=? 21)%nat then string_of_Z c
    else
      match drop_trailing_zeros (string_of_Z c) with
      | String a EmptyString => String a ("e+" ++ string_of_nat (n_digits - 1))
      | String a rest => String a ("." ++ rest ++ "e+" ++ string_of_nat (n_digits - 1))
      | EmptyString => "0"
      end.

(** [String(n)] for a number that is an integer. *)
Definition number_to_string (n : Z) : string :=
  if n <? 0 then "-" ++ digits_of_double (- n) else digits_of_double n.

(** [ToBoolean]. *)
Definition truthy_json (j : json) : bool :=
  match j with
  | JNull => false
  | JBool b => b
  | JNum n => negb (n =? 0)
  | JStr s => negb (s =? "")%string
  | JArr _ => true
  | JObj _ => true
  end.

Definition truthy (v : value) : bool :=
  match v with
  | None => false
  | Some j => truthy_json j
  end.

(** [a || b], for a right operand that is a value. *)
Definition or_else (a : value) (b : json) : json :=
  match a with
  | Some j => if truthy_json j then j else b
  | None => b
  end.

Fixpoint lookup (key : string) (fields : list (string * json)) : value :=
  match fields with
  | [] => None
  | (k, v) :: rest => if (k =? key)%string then Some v else lookup key rest
  end.

(** [String(j)], as a template literal applies it; [None] when it
    throws.  An object is converted by its [toString]: the one of
    [Object.prototype], unless the object has a key of that name, whose
    value, coming from [JSON.parse], is no function; then the conversion
    goes on to [valueOf], which gives no primitive value either, and
    throws a [TypeError].  An array joins the strings of its elements,
    the empty string for [null]. *)
Fixpoint to_string (j : json) : option string :=
  match j with
  | JNull => Some "null"
  | JBool true => Some "true"
  | JBool false => Some "false"
  | JNum n => Some (number_to_string n)
  | JStr s => Some s
  | JArr items =>
      match
        (fix elements (l : list json) : option (list string) :=
           match l with
           | [] => Some []
           | e :: rest =>
               match match e with JNull => Some "" | _ => to_string e end,
                     elements rest with
               | Some s, Some ss => Some (s :: ss)
               | _, _ => None
               end
           end) items
      with
      | Some strings => Some (String.concat "," strings)
      | None => None
      end
  | JObj fields =>
      match lookup "toString" fields with
      | Some _ => None
      | None => Some "[object Object]"
      end
  end.

Definition to_string_value (v : value) : option string :=
  match v with
  | None => Some "undefined"
  | Some j => to_string j
  end.

(** [data.key] for one of the keys the servers read (none of them is a
    property of a string, a number, a boolean or an array).  Reading a
    property of [null] throws: [None]. *)
Definition prop (data : json) (key : string) : option value :=
  match data with
  | JNull => None
  | JObj fields => Some (lookup key fields)
  | _ => Some None
  end.

(** [v === s] for a string [s]. *)
Definition strict_eq_string (v : json) (s : string) : bool :=
  match v with
  | JStr t => (t =? s)%string
  | _ => false
  end.

Definition startsWith (s p : string) : bool := String.prefix p s.

Definition endsWith (s p : string) : bool :=
  (String.length p <=? String.length s)%nat
  && (substring (String.length s - String.length p) (String.length p) s =? p)%string.

(** [s.split(c)] for a separator of one character. *)
Fixpoint split (c : ascii) (s : string) : list string :=
  match s with
  | EmptyString => [""]
  | String a rest =>
      if Ascii.eqb a c then "" :: split c rest
      else match split c rest with
           | [] => [String a ""]
           | h :: t => String a h :: t
           end
  end.

Definition join (sep : string) (l : list string) : string := String.concat sep l.

(** An error object: an [Error] or a [TypeError] with its message, or
    an error of Node itself, which carries a code besides (the
    [TypeError] with the code [ERR_INVALID_ARG_VALUE], say). *)
Inductive error : Type :=
| Error (msg : string)
| TypeError (msg : string)
| NodeError (name code msg : string).

(** [err.message]. *)
Definition message (e : error) : string :=
  match e with
  | Error msg => msg
  | TypeError msg => msg
  | NodeError _ _ msg => msg
  end.

(** [String(err)]: the name and the message as [Error.prototype.toString]
    puts them together; an error of Node has a [toString] of its own,
    which shows the code. *)
Definition error_to_string (e : error) : string :=
  match e with
  | Error msg => if (msg =? "")%string then "Error" else "Error: " ++ msg
  | TypeError msg => if (msg =? "")%string then "TypeError" else "TypeError: " ++ msg
  | NodeError name code msg => name ++ " [" ++ code ++ "]: " ++ msg
  end.

(** The [TypeError] of a conversion to a string that fails. *)
Definition unprintable : error :=
  TypeError "Cannot convert object to primitive value".

(** What a spawned child process does first, as far as the promise built
    on it can tell: it closes with an exit code ([None] when a signal
    ended it), or the spawn fails: by an error event, or because [spawn]
    itself throws inside the promise, as it does for an argument that
    holds a NUL character. *)
Inductive proc_outcome : Type :=
| Closed (code : option Z)
| SpawnError (err : error).

Definition code_to_string (code : option Z) : string :=
  match code with
  | None => "null"
  | Some c => number_to_string c
  end.

(** [s.trim()].  The white space and the line terminators of
    JavaScript, in the UTF-8 of the string: those of ASCII (tab, line
    feed, vertical tab, form feed, carriage return, space), U+00A0 in
    two bytes, and in three bytes U+1680, U+2000 to U+200A, U+2028,
    U+2029, U+202F, U+205F, U+3000 and U+FEFF. *)
Definition is_space (a : ascii) : bool :=
  let n := nat_of_ascii a in
  ((9 <=? n) && (n <=? 13) || (n =? 32))%nat.

Definition is_space2 (a b : ascii) : bool :=
  ((nat_of_ascii a =? 194) && (nat_of_ascii b =? 160))%nat.

Definition is_space3 (a b c : ascii) : bool :=
  let x := nat_of_ascii a in
  let y := nat_of_ascii b in
  let z := nat_of_ascii c in
  ((x =? 225) && (y =? 154) && (z =? 128)
   || (x =? 226) && (y =? 128)
      && ((128 <=? z) && (z <=? 138) || (z =? 168) || (z =? 169) || (z =? 175))
   || (x =? 226) && (y =? 129) && (z =? 159)
   || (x =? 227) && (y =? 128) && (z =? 128)
   || (x =? 239) && (y =? 187) && (z =? 191))%nat.

Fixpoint trimStart (s : string) : string :=
  match s with
  | EmptyString => EmptyString
  | String a r1 =>
      if is_space a then trimStart r1
      else
        match r1 with
        | String b r2 =>
            if is_space2 a b then trimStart r2
            else
              match r2 with
              | String c r3 => if is_space3 a b c then trimStart r3 else s
              | EmptyString => s
              end
        | EmptyString => s
        end
  end.

(** The same from the end, on the string read backwards. *)
Fixpoint trimEnd_backwards (s : string) : string :=
  match s with
  | EmptyString => EmptyString
  | String a r1 =>
      if is_space a then trimEnd_backwards r1
      else
        match r1 with
        | String b r2 =>
            if is_space2 b a then trimEnd_backwards r2
            else
              match r2 with
              | String c r3 => if is_space3 c b a then trimEnd_backwards r3 else s
              | EmptyString => s
              end
        | EmptyString => s
        end
  end.

Fixpoint rev_string (s acc : string) : string :=
  match s with
  | EmptyString => acc
  | String a rest => rev_string rest (String a acc)
  end.

Definition trim (s : string) : string :=
  rev_string (trimEnd_backwards (rev_string (trimStart s) "")) "".

(** [a || b] on strings. *)
Definition str_or (a b : string) : string :=
  if (a =? "")%string then b else a.

(** [a || b] on numbers. *)
Definition num_or (a b : Z) : Z :=
  if a =? 0 then b else a.

(** [JSON.stringify], without indentation. *)
Definition hex_nibble (n : nat) : ascii :=
  if (n <? 10)%nat then ascii_of_nat (48 + n) else ascii_of_nat (87 + n).

Definition dquote : ascii := ascii_of_nat 34.

Definition backslash : ascii := ascii_of_nat 92.

Definition escape_char (a : ascii) : string :=
  let n := nat_of_ascii a in
  if (n =? 34)%nat then String backslash (String dquote "")
  else if (n =? 92)%nat then String backslash (String backslash "")
  else if (n =? 8)%nat then String backslash "b"
  else if (n =? 12)%nat then String backslash "f"
  else if (n =? 10)%nat then String backslash "n"
  else if (n =? 13)%nat then String backslash "r"
  else if (n =? 9)%nat then String backslash "t"
  else if (n <? 32)%nat
       then String backslash "u00" ++ String (hex_nibble (n / 16)) (String (hex_nibble (n mod 16)) "")
       else String a "".

Fixpoint escape (s : string) : string :=
  match s with
  | EmptyString => EmptyString
  | String a rest => escape_char a ++ escape rest
  end.

Definition quote (s : string) : string :=
  String dquote (escape s ++ String dquote "").

Fixpoint JSON_stringify (j : json) : string :=
  match j with
  | JNull => "null"
  | JBool true => "true"
  | JBool false => "false"
  | JNum n => if finite n then number_to_string n else "null"
  | JStr s => quote s
  | JArr items => "[" ++ String.concat "," (map JSON_stringify items) ++ "]"
  | JObj fields =>
      "{" ++ String.concat ","
               (map (fun kv => match kv with
                               | (k, v) => quote k ++ ":" ++ JSON_stringify v
                               end) fields) ++ "}"
  end.

(** [randomBytes(n).toString("hex")]. *)
Definition hex_digit (n : N) : ascii :=
  if (n <? 10)%N then ascii_of_N (48 + n) else ascii_of_N (87 + n).

Definition hex_of_byte (b : byte) : string :=
  let n := Byte.to_N b in
  String (hex_digit (n / 16)) (String (hex_digit (n mod 16)) "").

Definition hex (bytes : list byte) : string :=
  String.concat "" (map hex_of_byte bytes).

(** [randomBytes(4)]. *)
Definition entropy : Type := (byte * byte * byte * byte)%type.

Definition bytes_of (e : entropy) : list byte :=
  let '(a, b, c, d) := e in [a; b; c; d].

(** What a tool call answers: the text of a result, or an error
    response ([isError: true]).  The text of a thrown error is
    ["Error: "] and its message; that of a [ZodError] is the report of
    the schema library, which is kept abstract. *)
Inductive failure : Type :=
| ZodError
| Thrown (err : error).

Inductive response : Type :=
| Text (text : string)
| IsError (why : failure).

End JS.

Import JS.

(** ** The file-based server *)

Module Agents.

Inductive priority_t : Type := Low | Normal | High.

Record AgentRegisterArgs : Type :=
  { reg_name : string; reg_description : string }.

Record AgentDeregisterArgs : Type :=
  { dereg_agent_id : string }.

Record AgentBroadcastArgs : Type :=
  { bc_agent_id : string; bc_message : string; bc_priority : priority_t }.

Record AgentDMArgs : Type :=
  { dm_agent_id : string; dm_to : string; dm_message : string }.

Record AgentDiscoverArgs : Type :=
  { include_stale : bool }.

(** The schemas.  [z.object] keeps the declared keys and drops every
    other one; a missing or ill-typed required key is a [ZodError]. *)
Definition fields_of (args : json) : option (list (string * json)) :=
  match args with
  | JObj fields => Some fields
  | _ => None
  end.

Definition z_string (v : value) : option string :=
  match v with
  | Some (JStr s) => Some s
  | _ => None
  end.

Definition z_priority (v : value) : option priority_t :=
  match v with
  | None => Some Normal
  | Some (JStr s) =>
      if (s =? "low")%string then Some Low
      else if (s =? "normal")%string then Some Normal
      else if (s =? "high")%string then Some High
      else None
  | Some _ => None
  end.

Definition z_boolean_default (d : bool) (v : value) : option bool :=
  match v with
  | None => Some d
  | Some (JBool b) => Some b
  | Some _ => None
  end.

Definition AgentRegisterSchema (args : json) : option AgentRegisterArgs :=
  match fields_of args with
  | None => None
  | Some fs =>
      match z_string (lookup "name" fs), z_string (lookup "description" fs) with
      | Some n, Some d => Some {| reg_name := n; reg_description := d |}
      | _, _ => None
      end
  end.

Definition AgentDeregisterSchema (args : json) : option AgentDeregisterArgs :=
  match fields_of args with
  | None => None
  | Some fs =>
      match z_string (lookup "agent_id" fs) with
      | Some i => Some {| dereg_agent_id := i |}
      | None => None
      end
  end.

Definition AgentBroadcastSchema (args : json) : option AgentBroadcastArgs :=
  match fields_of args with
  | None => None
  | Some fs =>
      match z_string (lookup "agent_id" fs), z_string (lookup "message" fs),
            z_priority (lookup "priority" fs) with
      | Some i, Some m, Some p =>
          Some {| bc_agent_id := i; bc_message := m; bc_priority := p |}
      | _, _, _ => None
      end
  end.

Definition AgentDMSchema (args : json) : option AgentDMArgs :=
  match fields_of args with
  | None => None
  | Some fs =>
      match z_string (lookup "agent_id" fs), z_string (lookup "to" fs),
            z_string (lookup "message" fs) with
      | Some i, Some t, Some m =>
          Some {| dm_agent_id := i; dm_to := t; dm_message := m |}
      | _, _, _ => None
      end
  end.

Definition AgentDiscoverSchema (args : json) : option AgentDiscoverArgs :=
  match fields_of args with
  | None => None
  | Some fs =>
      match z_boolean_default false (lookup "include_stale" fs) with
      | Some b => Some {| include_stale := b |}
      | None => None
      end
  end.

Record AgentInfo : Type :=
  { id : json; name : json; tmux_pane : string; is_stale : bool }.

(** One entry of the agent directory: its file name, what [statSync]
    gives as modification time (in ms, taken as whole) and what
    [JSON.parse] makes of its content; [None] where the call throws. *)
Record file : Type :=
  { f_name : string; f_mtimeMs : option Z; f_data : option json }.

(** The directory [/tmp]; [None] when [readdirSync] throws. *)
Definition directory : Type := option (list file).

Definition staleThreshold : Z := 5 * 60 * 1000.

Definition is_agent_file (f : string) : bool :=
  startsWith f "claude_agent_" && endsWith f ".json".

(** The pane of a record: the template literal of the three values
    when they are truthy; [None] when one of them cannot be converted
    and the literal throws. *)
Definition pane_of (data_session data_window data_pane : value) : option string :=
  if truthy data_session && truthy data_window && truthy data_pane
  then
    match to_string_value data_session, to_string_value data_window,
          to_string_value data_pane with
    | Some s, Some w, Some p => Some (s ++ ":" ++ w ++ "." ++ p)
    | _, _, _ => None
    end
  else Some "".

(** The body of the loop of [getActiveAgents] for one file: the record
    it pushes, or [None] when it pushes nothing (a stale file that is
    not asked for, or an exception, which the inner [catch] swallows). *)
Definition agent_of_file (now : Z) (includeStale : bool) (f : file)
  : option AgentInfo :=
  match f_mtimeMs f, f_data f with
  | Some mtimeMs, Some data =>
      let fileAge := now - mtimeMs in
      let isStale := staleThreshold <? fileAge in
      if negb includeStale && isStale then None
      else
        match prop data "agent_id", prop data "agent_name",
              prop data "tmux_session", prop data "tmux_window",
              prop data "tmux_pane" with
        | Some a_id, Some a_name, Some t_s, Some t_w, Some t_p =>
            match pane_of t_s t_w t_p with
            | Some pane =>
                Some {| id := or_else a_id (JStr "unknown");
                        name := or_else a_name (JStr "unknown");
                        tmux_pane := pane;
                        is_stale := isStale |}
            | None => None
            end
        | _, _, _, _, _ => None
        end
  | _, _ => None
  end.

Fixpoint collect_agents (now : Z) (includeStale : bool) (files : list file)
  : list AgentInfo :=
  match files with
  | [] => []
  | f :: rest =>
      match agent_of_file now includeStale f with
      | Some a => a :: collect_agents now includeStale rest
      | None => collect_agents now includeStale rest
      end
  end.

Definition getActiveAgents (dir : directory) (now : Z) (includeStale : bool)
  : list AgentInfo :=
  match dir with
  | None => []
  | Some entries =>
      collect_agents now includeStale
        (filter (fun f => is_agent_file (f_name f)) entries)
  end.

(** One call of [runSnd]: the pane and the message handed to [snd]. *)
Record snd_call : Type := SndCall { call_pane : string; call_message : string }.

(** The [snd] helper: what the process spawned for a call does, given
    the calls made before it. *)
Definition snd_helper : Type := list snd_call -> snd_call -> proc_outcome.

Definition runSnd (snd_proc : snd_helper) (log : list snd_call)
           (pane message : string) : (unit + error) * list snd_call :=
  let c := SndCall pane message in
  let r := match snd_proc log c with
           | Closed (Some 0) => inl tt
           | Closed code => inr (Error ("snd failed with code " ++ code_to_string code))
           | SpawnError err => inr err
           end in
  (r, (log ++ [c])%list).

Definition generateAgentId (random : entropy) (name : string) : string :=
  let suffix := hex (bytes_of random) in
  name ++ "-" ++ suffix.

Definition agentRegister (random : entropy) (args : AgentRegisterArgs) : string :=
  let agentId := generateAgentId random (reg_name args) in
  JSON_stringify
    (JObj [("agent_id", JStr agentId);
           ("message", JStr "Registered. Use this agent_id for all subsequent calls.")]).

Definition agentDeregister (_args : AgentDeregisterArgs) : string :=
  "Deregistered".

Definition senderName_of (agent_id : string) : string :=
  hd "" (split "-" agent_id).

Definition is_target (agent_id : string) (a : AgentInfo) : bool :=
  negb (strict_eq_string (id a) agent_id) && negb (tmux_pane a =? "")%string.

(** The loop of [agentBroadcast] over the targets.  The name of the
    target is converted in the [try], after the delivery, and in the
    [catch]: when it cannot be converted, the [TypeError] of the [catch]
    leaves the loop and the function, after the delivery to that target
    and before the next. *)
Fixpoint broadcast_loop (snd_proc : snd_helper) (formattedMsg : string)
         (targets : list AgentInfo) (results : list string) (log : list snd_call)
  : (list string + error) * list snd_call :=
  match targets with
  | [] => (inl results, log)
  | target :: rest =>
      let '(r, log') := runSnd snd_proc log (tmux_pane target) formattedMsg in
      match to_string (name target) with
      | Some target_name =>
          let line := match r with
                      | inl _ => "✓ " ++ target_name
                      | inr err => "✗ " ++ target_name ++ ": " ++ error_to_string err
                      end in
          broadcast_loop snd_proc formattedMsg rest (results ++ [line])%list log'
      | None => (inr unprintable, log')
      end
  end.

Definition agentBroadcast (dir : directory) (now : Z) (snd_proc : snd_helper)
           (args : AgentBroadcastArgs) : (string + error) * list snd_call :=
  let agents := getActiveAgents dir now false in
  let senderName := senderName_of (bc_agent_id args) in
  let targets := filter (is_target (bc_agent_id args)) agents in
  if (List.length targets =? 0)%nat then (inl "No other agents to broadcast to", [])
  else
    let formattedMsg := "[" ++ senderName ++ "] " ++ bc_message args in
    match broadcast_loop snd_proc formattedMsg targets [] [] with
    | (inl results, log) =>
        (inl ("Broadcast sent to " ++ string_of_nat (List.length targets) ++ " agent(s):"
                ++ nl ++ join nl results), log)
    | (inr err, log) => (inr err, log)
    end.

Definition agentDM (dir : directory) (now : Z) (snd_proc : snd_helper)
           (args : AgentDMArgs) : string * list snd_call :=
  let agents := getActiveAgents dir now false in
  let senderName := senderName_of (dm_agent_id args) in
  match find (fun a => strict_eq_string (id a) (dm_to args)) agents with
  | None => ("Agent " ++ dm_to args ++ " not found", [])
  | Some target =>
      if (tmux_pane target =? "")%string
      then ("Agent " ++ dm_to args ++ " has no tmux pane", [])
      else
        let formattedMsg := "[DM from " ++ senderName ++ "] " ++ dm_message args in
        match runSnd snd_proc [] (tmux_pane target) formattedMsg with
        | (inl _, log) =>
            match to_string (name target) with
            | Some target_name => ("DM sent to " ++ target_name, log)
            | None => ("Failed to send DM: " ++ error_to_string unprintable, log)
            end
        | (inr err, log) => ("Failed to send DM: " ++ error_to_string err, log)
        end
  end.

(** The line of one agent; [None] when its name or its id cannot be
    converted and the template literal throws. *)
Definition discover_line (a : AgentInfo) : option string :=
  match to_string (name a), to_string (id a) with
  | Some a_name, Some a_id =>
      Some ("- " ++ a_name ++ " (" ++ a_id ++ "): "
            ++ (if is_stale a then "stale" else "active") ++ " | pane: "
            ++ (if (tmux_pane a =? "")%string then "unknown" else tmux_pane a))
  | _, _ => None
  end.

(** [agents.map(...)]: the lines, or [None] when one of them throws. *)
Fixpoint discover_lines (agents : list AgentInfo) : option (list string) :=
  match agents with
  | [] => Some []
  | a :: rest =>
      match discover_line a, discover_lines rest with
      | Some line, Some lines => Some (line :: lines)
      | _, _ => None
      end
  end.

Definition agentDiscover (dir : directory) (now : Z) (args : AgentDiscoverArgs)
  : string + error :=
  let agents := getActiveAgents dir now (include_stale args) in
  if (List.length agents =? 0)%nat then inl "No agents currently registered."
  else
    match discover_lines agents with
    | Some lines =>
        inl ("Active agents (" ++ string_of_nat (List.length agents) ++ "):"
               ++ nl ++ join nl lines)
    | None => inr unprintable
    end.

(** The handler of [CallToolRequestSchema].  Next to the response it
    returns the calls of [snd] it made and the directory as the call
    leaves it: no tool of this server writes there (the server imports
    [readdirSync], [readFileSync] and [statSync] only).  What a tool
    throws is caught here and answered as an error, after the calls
    that the tool made. *)
Definition call_tool (dir : directory) (now : Z) (random : entropy)
           (snd_proc : snd_helper) (tool : string) (args : json)
  : response * list snd_call * directory :=
  if (tool =? "agent_register")%string then
    match AgentRegisterSchema args with
    | Some a => (Text (agentRegister random a), [], dir)
    | None => (IsError ZodError, [], dir)
    end
  else if (tool =? "agent_deregister")%string then
    match AgentDeregisterSchema args with
    | Some a => (Text (agentDeregister a), [], dir)
    | None => (IsError ZodError, [], dir)
    end
  else if (tool =? "agent_broadcast")%string then
    match AgentBroadcastSchema args with
    | Some a =>
        match agentBroadcast dir now snd_proc a with
        | (inl r, log) => (Text r, log, dir)
        | (inr err, log) => (IsError (Thrown err), log, dir)
        end
    | None => (IsError ZodError, [], dir)
    end
  else if (tool =? "agent_dm")%string then
    match AgentDMSchema args with
    | Some a => let '(r, log) := agentDM dir now snd_proc a in (Text r, log, dir)
    | None => (IsError ZodError, [], dir)
    end
  else if (tool =? "agent_discover")%string then
    match AgentDiscoverSchema args with
    | Some a =>
        match agentDiscover dir now a with
        | inl r => (Text r, [], dir)
        | inr err => (IsError (Thrown err), [], dir)
        end
    | None => (IsError ZodError, [], dir)
    end
  else (IsError (Thrown (Error ("Unknown tool: " ++ tool))), [], dir).

End Agents.

(** ** The bus server *)

Module Nats.

Definition NATS_URL (env : option string) : string :=
  match env with
  | Some u => str_or u "nats://localhost:4222"
  | None => "nats://localhost:4222"
  end.

Inductive priority_t : Type := Low | Normal | High.

Definition priority_string (p : priority_t) : string :=
  match p with
  | Low => "low"
  | Normal => "normal"
  | High => "high"
  end.

Record PublishArgs : Type :=
  { pub_subject : string; pub_message : string;
    pub_headers : option (list (string * string)) }.

Record SubscribeArgs : Type :=
  { sub_subject : string; sub_count : Z; sub_timeout : Z }.

Record AgentRegisterArgs : Type :=
  { reg_name : string; reg_description : string }.

Record AgentDeregisterArgs : Type :=
  { dereg_agent_id : string }.

Record AgentBroadcastArgs : Type :=
  { bc_agent_id : string; bc_message : string; bc_priority : priority_t }.

Record AgentDMArgs : Type :=
  { dm_agent_id : string; dm_to : string; dm_message : string }.

Record AgentCheckMessagesArgs : Type :=
  { cm_agent_id : string; cm_timeout : Z }.

Record AgentHeartbeatArgs : Type :=
  { hb_agent_id : string; hb_status : string }.

(** [AgentCheckMessagesSchema]: [timeout] is a number, 5000 when the
    caller leaves it out. *)
Definition AgentCheckMessagesSchema (args : json) : option AgentCheckMessagesArgs :=
  match args with
  | JObj fs =>
      match lookup "agent_id" fs, lookup "timeout" fs with
      | Some (JStr i), None => Some {| cm_agent_id := i; cm_timeout := 5000 |}
      | Some (JStr i), Some (JNum t) => Some {| cm_agent_id := i; cm_timeout := t |}
      | _, _ => None
      end
  | _ => None
  end.

(** A run of the [nats] client to its end: how the process ends and
    what it wrote meanwhile. *)
Record cli_run : Type :=
  { run_end : proc_outcome; run_stdout : string; run_stderr : string }.

(** The client, given the argument vectors of the runs before. *)
Definition nats_cli : Type := list (list string) -> list string -> cli_run.

Definition runNatsCommand (url : string) (cli : nats_cli) (log : list (list string))
           (args : list string) : (string + error) * list (list string) :=
  let fullArgs := ("-s" :: url :: args)%list in
  let run := cli log fullArgs in
  let r := match run_end run with
           | Closed (Some 0) => inl (str_or (trim (run_stdout run)) "OK")
           | Closed code =>
               inr (Error (str_or (run_stderr run)
                                  ("Command failed with code " ++ code_to_string code)))
           | SpawnError err => inr err
           end in
  (r, (log ++ [fullArgs])%list).

Definition publish (url : string) (cli : nats_cli) (log : list (list string))
           (args : PublishArgs) : (string + error) * list (list string) :=
  let cmdArgs :=
    match pub_headers args with
    | Some hs => app ["publish"; pub_subject args; pub_message args]
                     (flat_map (fun h => ["-H"; fst h ++ ":" ++ snd h]) hs)
    | None => ["publish"; pub_subject args; pub_message args]
    end in
  runNatsCommand url cli log cmdArgs.

(** A subscription is a process that is watched while it runs: what it
    does, each event with the time (in ms after the spawn) at which its
    callback runs, in the order of the callbacks. *)
Inductive proc_event : Type :=
| StdoutData (chunk : string)
| CloseEv (code : option Z)
| ErrorEv (err : error).

(** The delay that [setTimeout] gives a timer of [ms] milliseconds. *)
Definition setTimeout_delay (ms : Z) : Z :=
  if (ms <? 1) || (2147483647 <? ms) then 1 else ms.

(** A settled promise: when it settled and how. *)
Record settled (A : Type) : Type :=
  { settled_at : Z; outcome : A + error }.

Arguments settled_at {A} _.
Arguments outcome {A} _.

(** The promise of [subscribe]: the callbacks of the process run until
    one of them, or the timer, settles the promise. *)
Fixpoint subscribe_settle (delay : Z) (events : list (Z * proc_event))
         (stdout : string) : settled string :=
  match events with
  | [] => {| settled_at := delay; outcome := inl (str_or stdout "No messages received") |}
  | (t, ev) :: rest =>
      if delay <=? t
      then {| settled_at := delay; outcome := inl (str_or stdout "No messages received") |}
      else match ev with
           | StdoutData chunk => subscribe_settle delay rest (stdout ++ chunk)
           | CloseEv _ => {| settled_at := t; outcome := inl (str_or (trim stdout) "No messages") |}
           | ErrorEv err => {| settled_at := t; outcome := inr err |}
           end
  end.

Definition subscribe_argv (url : string) (args : SubscribeArgs) : list string :=
  ["-s"; url; "subscribe"; sub_subject args; "--count";
   number_to_string (num_or (sub_count args) 1)].

(** The subscribing client: the events of the process spawned with an
    argument vector. *)
Definition nats_stream : Type := list string -> list (Z * proc_event).

Definition subscribe (url : string) (stream : nats_stream) (args : SubscribeArgs)
  : settled string :=
  subscribe_settle (setTimeout_delay (num_or (sub_timeout args) 5000))
                   (stream (subscribe_argv url args)) "".

(** [Promise.all] of two promises created at the same instant: settled
    when both are fulfilled, or as soon as one is rejected. *)
Definition promise_all2 {A B : Type} (p : settled A) (q : settled B)
  : settled (A * B) :=
  match outcome p, outcome q with
  | inl a, inl b => {| settled_at := Z.max (settled_at p) (settled_at q);
                       outcome := inl (a, b) |}
  | inr e, inl _ => {| settled_at := settled_at p; outcome := inr e |}
  | inl _, inr e => {| settled_at := settled_at q; outcome := inr e |}
  | inr e1, inr e2 =>
      if settled_at p <=? settled_at q
      then {| settled_at := settled_at p; outcome := inr e1 |}
      else {| settled_at := settled_at q; outcome := inr e2 |}
  end.

Definition generateAgentId (random : entropy) (name : string) : string :=
  let suffix := hex (bytes_of random) in
  name ++ "-" ++ suffix.

(** A thrown error ends the function: the [let] of the exceptions. *)
Definition bind_publish {A : Type} (r : (string + error) * list (list string))
           (k : A) : (A + error) * list (list string) :=
  match r with
  | (inl _, log) => (inl k, log)
  | (inr e, log) => (inr e, log)
  end.

Definition agentRegister (url : string) (cli : nats_cli) (now : Z)
           (random : entropy) (args : AgentRegisterArgs)
  : (string + error) * list (list string) :=
  let agentId := generateAgentId random (reg_name args) in
  let payload := JSON_stringify
                   (JObj [("id", JStr agentId); ("name", JStr (reg_name args));
                          ("description", JStr (reg_description args));
                          ("ts", JNum now)]) in
  bind_publish
    (publish url cli [] {| pub_subject := "agents.register"; pub_message := payload;
                           pub_headers := None |})
    (JSON_stringify
       (JObj [("agent_id", JStr agentId);
              ("message", JStr "Registered. Use this agent_id for all subsequent calls.")])).

Definition agentDeregister (url : string) (cli : nats_cli) (now : Z)
           (args : AgentDeregisterArgs) : (string + error) * list (list string) :=
  let payload := JSON_stringify
                   (JObj [("id", JStr (dereg_agent_id args)); ("ts", JNum now)]) in
  bind_publish
    (publish url cli [] {| pub_subject := "agents.deregister"; pub_message := payload;
                           pub_headers := None |})
    "Deregistered".

Definition agentBroadcast (url : string) (cli : nats_cli) (now : Z)
           (args : AgentBroadcastArgs) : (string + error) * list (list string) :=
  let payload := JSON_stringify
                   (JObj [("from", JStr (bc_agent_id args));
                          ("msg", JStr (bc_message args));
                          ("priority",
                           JStr (str_or (priority_string (bc_priority args)) "normal"));
                          ("ts", JNum now)]) in
  bind_publish
    (publish url cli [] {| pub_subject := "agents.broadcast"; pub_message := payload;
                           pub_headers := None |})
    "Broadcast sent".

Definition agentDM (url : string) (cli : nats_cli) (now : Z) (args : AgentDMArgs)
  : (string + error) * list (list string) :=
  let payload := JSON_stringify
                   (JObj [("from", JStr (dm_agent_id args)); ("to", JStr (dm_to args));
                          ("msg", JStr (dm_message args)); ("ts", JNum now)]) in
  bind_publish
    (publish url cli [] {| pub_subject := "agents.dm." ++ dm_to args;
                           pub_message := payload; pub_headers := None |})
    ("DM sent to " ++ dm_to args).

Definition is_message (s : string) : bool :=
  negb (s =? "")%string && negb (s =? "No messages")%string
  && negb (s =? "No messages received")%string.

Definition render_messages (dms broadcasts : string) : string :=
  let messages :=
    app (if is_message dms then ["[DMs]" ++ nl ++ dms] else [])
        (if is_message broadcasts then ["[Broadcasts]" ++ nl ++ broadcasts] else []) in
  if (0 <? List.length messages)%nat then join (nl ++ nl) messages else "No messages".

(** The two subscriptions that [agentCheckMessages] creates, in the
    order of their creation. *)
Definition check_subscriptions (args : AgentCheckMessagesArgs)
  : SubscribeArgs * SubscribeArgs :=
  let timeout := num_or (cm_timeout args) 5000 in
  let dmSubject := "agents.dm." ++ cm_agent_id args in
  let broadcastSubject := "agents.broadcast" in
  ({| sub_subject := dmSubject; sub_count := 10; sub_timeout := timeout |},
   {| sub_subject := broadcastSubject; sub_count := 10; sub_timeout := timeout |}).

Definition agentCheckMessages (url : string) (stream : nats_stream)
           (args : AgentCheckMessagesArgs) : settled string :=
  let '(dm_sub, bc_sub) := check_subscriptions args in
  let both := promise_all2 (subscribe url stream dm_sub) (subscribe url stream bc_sub) in
  {| settled_at := settled_at both;
     outcome := match outcome both with
                | inl (dms, broadcasts) => inl (render_messages dms broadcasts)
                | inr e => inr e
                end |}.

Definition agentHeartbeat (url : string) (cli : nats_cli) (now : Z)
           (args : AgentHeartbeatArgs) : (string + error) * list (list string) :=
  let payload := JSON_stringify
                   (JObj [("id", JStr (hb_agent_id args));
                          ("status", JStr (str_or (hb_status args) "active"));
                          ("ts", JNum now)]) in
  bind_publish
    (publish url cli [] {| pub_subject := "agents.heartbeat." ++ hb_agent_id args;
                           pub_message := payload; pub_headers := None |})
    "Heartbeat sent".

Record RequestArgs : Type :=
  { req_subject : string; req_message : string; req_timeout : Z }.

Definition natsRequest (url : string) (cli : nats_cli) (log : list (list string))
           (args : RequestArgs) : (string + error) * list (list string) :=
  let cmdArgs :=
    ["request"; req_subject args; req_message args; "--timeout";
     number_to_string (num_or (req_timeout args) 5000) ++ "ms"] in
  runNatsCommand url cli log cmdArgs.

(** The schemas of the bus server.  As in the file-based server,
    [z.object] keeps the declared keys and a missing or ill-typed
    required key is a [ZodError]. *)
Definition z_number_default (d : Z) (v : value) : option Z :=
  match v with
  | None => Some d
  | Some (JNum n) => Some n
  | Some _ => None
  end.

Definition z_string_default (d : string) (v : value) : option string :=
  match v with
  | None => Some d
  | Some (JStr s) => Some s
  | Some _ => None
  end.

Definition z_priority (v : value) : option priority_t :=
  match v with
  | None => Some Normal
  | Some (JStr s) =>
      if (s =? "low")%string then Some Low
      else if (s =? "normal")%string then Some Normal
      else if (s =? "high")%string then Some High
      else None
  | Some _ => None
  end.

(** One element of [headers]: an object with a string [key] and a
    string [value]. *)
Definition z_header (j : json) : option (string * string) :=
  match j with
  | JObj fs =>
      match lookup "key" fs, lookup "value" fs with
      | Some (JStr k), Some (JStr v) => Some (k, v)
      | _, _ => None
      end
  | _ => None
  end.

Fixpoint z_header_array (items : list json) : option (list (string * string)) :=
  match items with
  | [] => Some []
  | j :: rest =>
      match z_header j, z_header_array rest with
      | Some h, Some hs => Some (h :: hs)
      | _, _ => None
      end
  end.

(** [z.array(...).optional()]: left out, or an array of headers. *)
Definition z_headers (v : value) : option (option (list (string * string))) :=
  match v with
  | None => Some None
  | Some (JArr items) =>
      match z_header_array items with
      | Some hs => Some (Some hs)
      | None => None
      end
  | Some _ => None
  end.

Definition PublishSchema (args : json) : option PublishArgs :=
  match args with
  | JObj fs =>
      match lookup "subject" fs, lookup "message" fs, z_headers (lookup "headers" fs) with
      | Some (JStr s), Some (JStr m), Some hs =>
          Some {| pub_subject := s; pub_message := m; pub_headers := hs |}
      | _, _, _ => None
      end
  | _ => None
  end.

Definition SubscribeSchema (args : json) : option SubscribeArgs :=
  match args with
  | JObj fs =>
      match lookup "subject" fs, z_number_default 1 (lookup "count" fs),
            z_number_default 5000 (lookup "timeout" fs) with
      | Some (JStr s), Some c, Some t =>
          Some {| sub_subject := s; sub_count := c; sub_timeout := t |}
      | _, _, _ => None
      end
  | _ => None
  end.

Definition RequestSchema (args : json) : option RequestArgs :=
  match args with
  | JObj fs =>
      match lookup "subject" fs, lookup "message" fs,
            z_number_default 5000 (lookup "timeout" fs) with
      | Some (JStr s), Some (JStr m), Some t =>
          Some {| req_subject := s; req_message := m; req_timeout := t |}
      | _, _, _ => None
      end
  | _ => None
  end.

Definition AgentRegisterSchema (args : json) : option AgentRegisterArgs :=
  match args with
  | JObj fs =>
      match lookup "name" fs, lookup "description" fs with
      | Some (JStr n), Some (JStr d) => Some {| reg_name := n; reg_description := d |}
      | _, _ => None
      end
  | _ => None
  end.

Definition AgentDeregisterSchema (args : json) : option AgentDeregisterArgs :=
  match args with
  | JObj fs =>
      match lookup "agent_id" fs with
      | Some (JStr i) => Some {| dereg_agent_id := i |}
      | _ => None
      end
  | _ => None
  end.

Definition AgentBroadcastSchema (args : json) : option AgentBroadcastArgs :=
  match args with
  | JObj fs =>
      match lookup "agent_id" fs, lookup "message" fs, z_priority (lookup "priority" fs) with
      | Some (JStr i), Some (JStr m), Some p =>
          Some {| bc_agent_id := i; bc_message := m; bc_priority := p |}
      | _, _, _ => None
      end
  | _ => None
  end.

Definition AgentDMSchema (args : json) : option AgentDMArgs :=
  match args with
  | JObj fs =>
      match lookup "agent_id" fs, lookup "to" fs, lookup "message" fs with
      | Some (JStr i), Some (JStr t), Some (JStr m) =>
          Some {| dm_agent_id := i; dm_to := t; dm_message := m |}
      | _, _, _ => None
      end
  | _ => None
  end.

Definition AgentHeartbeatSchema (args : json) : option AgentHeartbeatArgs :=
  match args with
  | JObj fs =>
      match lookup "agent_id" fs, z_string_default "active" (lookup "status" fs) with
      | Some (JStr i), Some st => Some {| hb_agent_id := i; hb_status := st |}
      | _, _ => None
      end
  | _ => None
  end.

(** What the handler makes of a promise: its text, or the error
    response of the [catch]. *)
Definition respond (r : string + error) : response :=
  match r with
  | inl text => Text text
  | inr err => IsError (Thrown err)
  end.

(** The handler of [CallToolRequestSchema], with the argument vectors
    of the processes it spawned, in the order of the spawns. *)
Definition call_tool (url : string) (cli : nats_cli) (stream : nats_stream)
           (now : Z) (random : entropy) (tool : string) (args : json)
  : response * list (list string) :=
  let run (r : (string + error) * list (list string)) := (respond (fst r), snd r) in
  if (tool =? "nats_publish")%string then
    match PublishSchema args with
    | Some a => run (publish url cli [] a)
    | None => (IsError ZodError, [])
    end
  else if (tool =? "nats_subscribe")%string then
    match SubscribeSchema args with
    | Some a => (respond (outcome (subscribe url stream a)), [subscribe_argv url a])
    | None => (IsError ZodError, [])
    end
  else if (tool =? "nats_request")%string then
    match RequestSchema args with
    | Some a => run (natsRequest url cli [] a)
    | None => (IsError ZodError, [])
    end
  else if (tool =? "nats_agent_register")%string then
    match AgentRegisterSchema args with
    | Some a => run (agentRegister url cli now random a)
    | None => (IsError ZodError, [])
    end
  else if (tool =? "nats_agent_deregister")%string then
    match AgentDeregisterSchema args with
    | Some a => run (agentDeregister url cli now a)
    | None => (IsError ZodError, [])
    end
  else if (tool =? "nats_agent_broadcast")%string then
    match AgentBroadcastSchema args with
    | Some a => run (agentBroadcast url cli now a)
    | None => (IsError ZodError, [])
    end
  else if (tool =? "nats_agent_dm")%string then
    match AgentDMSchema args with
    | Some a => run (agentDM url cli now a)
    | None => (IsError ZodError, [])
    end
  else if (tool =? "nats_agent_check_messages")%string then
    match AgentCheckMessagesSchema args with
    | Some a =>
        (respond (outcome (agentCheckMessages url stream a)),
         [subscribe_argv url (fst (check_subscriptions a));
          subscribe_argv url (snd (check_subscriptions a))])
    | None => (IsError ZodError, [])
    end
  else if (tool =? "nats_agent_heartbeat")%string then
    match AgentHeartbeatSchema args with
    | Some a => run (agentHeartbeat url cli now a)
    | None => (IsError ZodError, [])
    end
  else (IsError (Thrown (Error ("Unknown tool: " ++ tool))), []).

End Nats.

(** ** The directory resolver and the history ledger

    The repository documents and tests a resolver of agent references
    and a ledger of messages ([dm_history] and its siblings); their code
    is not among the sources.  They are modelled here from the
    specification, sections 3, 4.3 and 4.6. *)

Module Ledger.

(** Modelled from the spec: the agent record of section 3 (the source
    that stores such records is missing). *)
Record AgentRecord : Type :=
  { id : string; name : string; description : string; group : string;
    route_target : option string; last_seen : Z }.

(** Modelled from the spec: the three results of the resolver, section
    4.3 (the resolver's source is missing). *)
Inductive resolution : Type :=
| Resolved (r : AgentRecord)
| NotFound
| Ambiguous.

(** Modelled from the spec: section 4.3 leaves the choice between the
    most recently seen match and an ambiguity result to the implementer
    (the resolver's source is missing). *)
Inductive policy : Type := MostRecentlySeen | SurfaceAmbiguity.

(** Modelled from the spec: the most recently seen of several matches
    (the resolver's source is missing); of two seen at the same time,
    the one listed first. *)
Fixpoint most_recent (best : AgentRecord) (rest : list AgentRecord) : AgentRecord :=
  match rest with
  | [] => best
  | r :: rest' =>
      if last_seen best <? last_seen r then most_recent r rest'
      else most_recent best rest'
  end.

(** Modelled from the spec: the Directory Resolver of section 4.3, whose
    source is missing.  First an exact match on the full id; otherwise
    the candidates whose name is the reference: none is [NotFound], one
    is returned, several are settled by the policy. *)
Definition resolve (p : policy) (reference : string) (candidates : list AgentRecord)
  : resolution :=
  match find (fun c => (id c =? reference)%string) candidates with
  | Some r => Resolved r
  | None =>
      match filter (fun c => (name c =? reference)%string) candidates with
      | [] => NotFound
      | [r] => Resolved r
      | r :: rest =>
          match p with
          | MostRecentlySeen => Resolved (most_recent r rest)
          | SurfaceAmbiguity => Ambiguous
          end
      end
  end.

(** Modelled from the spec: the message envelope of section 3, with the
    cursor that the ledger assigns when it appends (section 4.6). *)
Record Envelope : Type :=
  { cursor : Z; from : string; to : option string; channel : option string;
    content : string; timestamp : Z }.

(** Modelled from the spec: the ledger of section 4.6 is append-only
    (its source is missing); its entries in the order in which they
    were appended. *)
Definition ledger : Type := list Envelope.

(** Modelled from the spec: cursors increase strictly (section 4.6; the
    ledger's source is missing). *)
Definition next_cursor (l : ledger) : Z :=
  fold_right (fun e acc => Z.max (cursor e + 1) acc) 1 l.

(** Modelled from the spec: [record] of section 4.6 appends, and gives
    the entry a cursor above every earlier one. *)
Definition record (l : ledger) (sender : string) (target channel_name : option string)
           (text : string) (now : Z) : ledger :=
  (l ++ [{| cursor := next_cursor l; from := sender; to := target;
            channel := channel_name; content := text; timestamp := now |}])%list.

(** Modelled from the spec: whether a message is addressed to [s] (the
    ledger's source is missing). *)
Definition opt_is (o : option string) (s : string) : bool :=
  match o with
  | Some t => (t =? s)%string
  | None => false
  end.

(** Modelled from the spec: an entry of the bidirectional history of
    [a] and [b] (section 4.6; the ledger's source is missing). *)
Definition between (a b : string) (e : Envelope) : bool :=
  ((from e =? a)%string && opt_is (to e) b)
  || ((from e =? b)%string && opt_is (to e) a).

(** Modelled from the spec: the most recent [limit] entries (section
    4.6; the ledger's source is missing), that is the last [limit] of
    the list. *)
Definition most_recent_entries {A : Type} (limit : nat) (l : list A) : list A :=
  skipn (List.length l - limit) l.

(** Modelled from the spec: what [dm_history] answers (its source is
    missing): entries, the sentence for an empty history, or the failed
    resolution. *)
Inductive history_result : Type :=
| History (entries : list Envelope)
| NoHistory (text : string)
| Unresolved (why : resolution).

(** Modelled from the spec: [dm_history] of section 4.6, whose source
    is missing.  The reference is resolved first; the result is the most
    recent [limit] entries between the two ids, oldest first, and an
    empty result is the message that names the agent asked for.  What a
    failed resolution answers is not specified: it is returned as it
    is. *)
Definition dm_history (p : policy) (candidates : list AgentRecord) (l : ledger)
           (agent_a agent_b_reference : string) (limit : nat) : history_result :=
  match resolve p agent_b_reference candidates with
  | Resolved b =>
      match most_recent_entries limit (filter (between agent_a (id b)) l) with
      | [] => NoHistory ("No DM history with " ++ agent_b_reference)
      | entries => History entries
      end
  | other => Unresolved other
  end.

End Ledger.

(** ** Notions used to state the properties *)

Module Outcome.

Import Agents.

(** The line that [agentBroadcast] reports for one target, read off
    what the helper does for that delivery; there is none when the name
    of the target cannot be converted to a string. *)
Definition delivery_line (snd_proc : snd_helper) (before : list snd_call)
           (formattedMsg : string) (target : AgentInfo) : option string :=
  match to_string (name target) with
  | Some target_name =>
      Some match snd_proc before (SndCall (tmux_pane target) formattedMsg) with
           | Closed (Some 0) => "✓ " ++ target_name
           | Closed code =>
               "✗ " ++ target_name ++ ": Error: snd failed with code "
               ++ code_to_string code
           | SpawnError err => "✗ " ++ target_name ++ ": " ++ error_to_string err
           end
  | None => None
  end.

(** A value that a template literal can convert to a string. *)
Definition converts (j : json) : bool :=
  match to_string j with
  | Some _ => true
  | None => false
  end.

(** A record whose name can be converted to a string; one whose name
    and id can. *)
Definition printable_name (a : AgentInfo) : bool := converts (name a).

Definition printable (a : AgentInfo) : bool := converts (name a) && converts (id a).

(** The targets that the loop of a broadcast gets to: all of them, or
    those up to the first whose name cannot be converted, that one
    included. *)
Fixpoint reached (targets : list AgentInfo) : list AgentInfo :=
  match targets with
  | [] => []
  | target :: rest =>
      if printable_name target then target :: reached rest else [target]
  end.

(** The delivery that a broadcast makes for one target. *)
Definition call_for (formattedMsg : string) (target : AgentInfo) : snd_call :=
  SndCall (tmux_pane target) formattedMsg.

(** A process event that brings no message and no failure: the end
    of the process, or an empty chunk of output. *)
Definition quiet (ev : Z * Nats.proc_event) : bool :=
  match snd ev with
  | Nats.StdoutData chunk => (chunk =? "")%string
  | Nats.CloseEv _ => true
  | Nats.ErrorEv _ => false
  end.

(** The summary of a broadcast: the number of targets, then a line for
    each. *)
Definition summary (count : nat) (lines : list string) : string :=
  "Broadcast sent to " ++ string_of_nat count ++ " agent(s):" ++ nl ++ join nl lines.

End Outcome.

(** ** A small directory, for the examples

    Four presence files and a file that is none: alice and bob have a
    pane, carol's file names no pane, dave's file is an hour old. *)

Module Sample.

Import Agents.

Definition presence (agent_id agent_name : string) (pane : list (string * json)) : json :=
  JObj (("agent_id", JStr agent_id) :: ("agent_name", JStr agent_name) :: pane).

Definition pane_fields (session window pane : string) : list (string * json) :=
  [("tmux_session", JStr session); ("tmux_window", JStr window); ("tmux_pane", JStr pane)].

Definition t0 : Z := 1700000000000.

Definition alice : file :=
  {| f_name := "claude_agent_alice.json"; f_mtimeMs := Some (t0 - 1000);
     f_data := Some (presence "alice-0a1b2c3d" "alice" (pane_fields "main" "1" "0")) |}.

Definition bob : file :=
  {| f_name := "claude_agent_bob.json"; f_mtimeMs := Some (t0 - 2000);
     f_data := Some (presence "bob-11223344" "bob" (pane_fields "main" "1" "1")) |}.

Definition carol : file :=
  {| f_name := "claude_agent_carol.json"; f_mtimeMs := Some (t0 - 3000);
     f_data := Some (presence "carol-55667788" "carol"
                       [("tmux_session", JStr "main"); ("tmux_window", JStr "2")]) |}.

Definition dave : file :=
  {| f_name := "claude_agent_dave.json"; f_mtimeMs := Some (t0 - 3600000);
     f_data := Some (presence "dave-99aabbcc" "dave" (pane_fields "main" "3" "0")) |}.

Definition notes : file :=
  {| f_name := "notes.txt"; f_mtimeMs := Some t0; f_data := None |}.

Definition tmp : directory := Some [alice; bob; carol; dave; notes].

(** A presence file whose name is no string: an object with a key
    [toString], which no template literal can convert. *)
Definition mallory : file :=
  {| f_name := "claude_agent_mallory.json"; f_mtimeMs := Some (t0 - 500);
     f_data := Some (JObj (("agent_id", JStr "mallory-5ca1ab1e")
                             :: ("agent_name", JObj [("toString", JNum 1)])
                             :: pane_fields "main" "4" "0")) |}.

(** A helper that fails for bob's pane and works for every other. *)
Definition snd_bob_down : snd_helper :=
  fun _ c => if (call_pane c =? "main:1.1")%string then Closed (Some 1)
             else Closed (Some 0).

Definition snd_ok : snd_helper := fun _ _ => Closed (Some 0).

Definition hello_from_carol : AgentBroadcastArgs :=
  {| bc_agent_id := "carol-55667788"; bc_message := "hello"; bc_priority := Normal |}.

(** A [nats] client whose every run succeeds and prints nothing. *)
Definition cli_ok : Nats.nats_cli :=
  fun _ _ => {| Nats.run_end := Closed (Some 0); Nats.run_stdout := "";
                Nats.run_stderr := "" |}.

Definition bus_hello : Nats.AgentBroadcastArgs :=
  {| Nats.bc_agent_id := "carol-55667788"; Nats.bc_message := "hello";
     Nats.bc_priority := Nats.Normal |}.

Definition url : string := Nats.NATS_URL None.

(** Subscriptions on which nothing arrives and whose process stays. *)
Definition nothing_arrives : Nats.nats_stream := fun _ => [].

(** A direct message arrives after 40 ms; the process that listens for
    broadcasts ends after 120 ms without output. *)
Definition one_dm : Nats.nats_stream :=
  fun argv =>
    if (nth 3 argv "" =? "agents.broadcast")%string
    then [(120, Nats.CloseEv (Some 0))]
    else [(40, Nats.StdoutData "ping")].

(** The records of alice and bob, and a ledger with a message of each
    to the other and one of alice to a channel. *)
Definition alice_record : Ledger.AgentRecord :=
  {| Ledger.id := "alice-0a1b2c3d"; Ledger.name := "alice"; Ledger.description := "";
     Ledger.group := "default"; Ledger.route_target := Some "main:1.0";
     Ledger.last_seen := t0 |}.

Definition bob_record : Ledger.AgentRecord :=
  {| Ledger.id := "bob-11223344"; Ledger.name := "bob"; Ledger.description := "";
     Ledger.group := "default"; Ledger.route_target := Some "main:1.1";
     Ledger.last_seen := t0 |}.

Definition talk : Ledger.ledger :=
  Ledger.record
    (Ledger.record
       (Ledger.record [] "alice-0a1b2c3d" (Some "bob-11223344") None "hi" t0)
       "alice-0a1b2c3d" None (Some "general") "status" (t0 + 1))
    "bob-11223344" (Some "alice-0a1b2c3d") None "yo" (t0 + 2).

Definition check_now : Nats.AgentCheckMessagesArgs :=
  {| Nats.cm_agent_id := "bob-11223344"; Nats.cm_timeout := 0 |}.

Definition check_200 : Nats.AgentCheckMessagesArgs :=
  {| Nats.cm_agent_id := "bob-11223344"; Nats.cm_timeout := 200 |}.

Definition random : entropy := (Byte.x0a, Byte.x1b, Byte.x2c, Byte.x3d).

(** A broadcast request that names a group. *)
Definition to_research : json :=
  JObj [("agent_id", JStr "alice-0a1b2c3d"); ("message", JStr "hi");
        ("group", JStr "research")].

End Sample.

(** ** Notions used to state further properties *)

Module Reading.

(** A digit of lower-case hexadecimal. *)
Definition is_lower_hex (a : ascii) : bool :=
  let n := nat_of_ascii a in
  ((48 <=? n) && (n <=? 57) || (97 <=? n) && (n <=? 102))%nat.

Definition all_chars (test : ascii -> bool) (s : string) : bool :=
  forallb test (list_ascii_of_string s).

(** The value of a hexadecimal digit, and the byte that two of them
    spell. *)
Definition unhex_digit (a : ascii) : option N :=
  let n := N_of_ascii a in
  if ((48 <=? n) && (n <=? 57))%N then Some (n - 48)%N
  else if ((97 <=? n) && (n <=? 102))%N then Some (n - 87)%N
  else None.

Definition unhex_byte (s : string) : option byte :=
  match s with
  | String hi (String lo EmptyString) =>
      match unhex_digit hi, unhex_digit lo with
      | Some h, Some l => Byte.of_N (16 * h + l)
      | _, _ => None
      end
  | _ => None
  end.

(** The text of the chunks of output among some events. *)
Fixpoint output_of (events : list (Z * Nats.proc_event)) : string :=
  match events with
  | [] => ""
  | (_, Nats.StdoutData chunk) :: rest => chunk ++ output_of rest
  | _ :: rest => output_of rest
  end.

Definition is_output (ev : Z * Nats.proc_event) : bool :=
  match snd ev with
  | Nats.StdoutData _ => true
  | _ => false
  end.

(** The events whose callbacks run before a timer of [delay] ms. *)
Fixpoint before_timer (delay : Z) (events : list (Z * Nats.proc_event))
  : list (Z * Nats.proc_event) :=
  match events with
  | [] => []
  | ev :: rest => if delay <=? fst ev then [] else ev :: before_timer delay rest
  end.

(** The subject on which a spawned [nats] client works: the argument
    after the command. *)
Definition subject_of (argv : list string) : string := nth 3 argv "".

(** The tools of the two servers. *)
Definition agents_tools : list string :=
  ["agent_register"; "agent_deregister"; "agent_broadcast"; "agent_dm"; "agent_discover"].

Definition nats_tools : list string :=
  ["nats_publish"; "nats_subscribe"; "nats_request"; "nats_agent_register";
   "nats_agent_deregister"; "nats_agent_broadcast"; "nats_agent_dm";
   "nats_agent_check_messages"; "nats_agent_heartbeat"].

Definition is_error (r : response) : bool :=
  match r with
  | Text _ => false
  | IsError _ => true
  end.

(** The request that asks to publish with given arguments. *)
Definition header_json (h : string * string) : json :=
  JObj [("key", JStr (fst h)); ("value", JStr (snd h))].

Definition publish_request (a : Nats.PublishArgs) : json :=
  JObj (("subject", JStr (Nats.pub_subject a))
          :: ("message", JStr (Nats.pub_message a))
          :: match Nats.pub_headers a with
             | Some hs => [("headers", JArr (map header_json hs))]
             | None => []
             end).

End Reading.

(** * Properties *)

(** ** Strings and values *)

Lemma strict_eq_string_true (v : json) (s : string) :
  strict_eq_string v s = true <-> v = JStr s.
Proof.
  destruct v; simpl; split; intro H; try discriminate.
  - apply String.eqb_eq in H. now subst.
  - injection H as ->. apply String.eqb_refl.
Qed.

Lemma string_nonempty (s : string) :
  negb (s =? "")%string = true <-> s <> "".
Proof.
  rewrite negb_true_iff. split.
  - intros H E. subst. discriminate.
  - intro H. apply String.eqb_neq. exact H.
Qed.

Lemma length_zero_nil {A : Type} (l : list A) :
  (List.length l =? 0)%nat = true <-> l = [].
Proof.
  destruct l; simpl; split; intro H; try reflexivity; discriminate.
Qed.

Lemma append_cancel_l (p s s' : string) : p ++ s = p ++ s' -> s = s'.
Proof.
  induction p as [|a p IH]; simpl; intro H; [exact H|].
  injection H as H. now apply IH.
Qed.

Lemma lookup_other (key k : string) (v : json) (before after : list (string * json)) :
  k <> key ->
  lookup key (before ++ (k, v) :: after)%list = lookup key (before ++ after)%list.
Proof.
  intro H. induction before as [|[k' v'] before IH]; simpl.
  - apply String.eqb_neq in H. now rewrite H.
  - destruct (k' =? key)%string; [reflexivity | exact IH].
Qed.

(** ** The agent directory *)

Section Directory.

Import Agents.

Variable now : Z.

Lemma In_collect_agents (includeStale : bool) (files : list file) (a : AgentInfo) :
  In a (collect_agents now includeStale files)
  <-> exists f, In f files /\ agent_of_file now includeStale f = Some a.
Proof.
  induction files as [|f files IH]; simpl.
  - split; [intros [] | intros (f & [] & _)].
  - destruct (agent_of_file now includeStale f) as [b|] eqn:E.
    + simpl. rewrite IH. split.
      * intros [<- | (g & Hg & Eg)]; [exists f | exists g]; auto.
      * intros (g & [<- | Hg] & Eg).
        -- left. congruence.
        -- right. exists g. auto.
    + rewrite IH. split.
      * intros (g & Hg & Eg). exists g. auto.
      * intros (g & [<- | Hg] & Eg); [congruence | exists g; auto].
Qed.

Lemma In_getActiveAgents (includeStale : bool) (entries : list file) (a : AgentInfo) :
  In a (getActiveAgents (Some entries) now includeStale)
  <-> exists f, In f entries /\ is_agent_file (f_name f) = true
                /\ agent_of_file now includeStale f = Some a.
Proof.
  unfold getActiveAgents. rewrite In_collect_agents. split.
  - intros (f & Hf & E). apply filter_In in Hf. exists f. tauto.
  - intros (f & Hf & Hn & E). exists f. split; [apply filter_In|]; auto.
Qed.

(** What the loop body makes of a file that it does not skip. *)
Lemma agent_of_file_Some (includeStale : bool) (f : file) (a : AgentInfo) :
  agent_of_file now includeStale f = Some a ->
  exists mtimeMs data a_id a_name t_s t_w t_p pane,
    f_mtimeMs f = Some mtimeMs /\ f_data f = Some data
    /\ prop data "agent_id" = Some a_id /\ prop data "agent_name" = Some a_name
    /\ prop data "tmux_session" = Some t_s /\ prop data "tmux_window" = Some t_w
    /\ prop data "tmux_pane" = Some t_p
    /\ pane_of t_s t_w t_p = Some pane
    /\ (includeStale = true \/ now - mtimeMs <= staleThreshold)
    /\ a = {| id := or_else a_id (JStr "unknown");
              name := or_else a_name (JStr "unknown");
              tmux_pane := pane;
              is_stale := staleThreshold <? now - mtimeMs |}.
Proof.
  unfold agent_of_file.
  destruct (f_mtimeMs f) as [m|]; [|discriminate].
  destruct (f_data f) as [data|]; [|discriminate].
  destruct (negb includeStale && (staleThreshold <? now - m)) eqn:Hskip; [discriminate|].
  destruct (prop data "agent_id") as [a_id|] eqn:E1; [|discriminate].
  destruct (prop data "agent_name") as [a_name|] eqn:E2; [|discriminate].
  destruct (prop data "tmux_session") as [t_s|] eqn:E3; [|discriminate].
  destruct (prop data "tmux_window") as [t_w|] eqn:E4; [|discriminate].
  destruct (prop data "tmux_pane") as [t_p|] eqn:E5; [|discriminate].
  destruct (pane_of t_s t_w t_p) as [pane|] eqn:E6; [|discriminate].
  intro H. injection H as <-.
  exists m, data, a_id, a_name, t_s, t_w, t_p, pane.
  repeat (split; [solve [reflexivity | assumption]|]). split; [|reflexivity].
  apply andb_false_iff in Hskip. destruct Hskip as [H | H].
  - left. now apply negb_false_iff.
  - right. apply Z.ltb_ge. exact H.
Qed.


Lemma agent_of_file_fresh (f : file) (a : AgentInfo) :
  agent_of_file now false f = Some a ->
  is_stale a = false
  /\ exists mtimeMs, f_mtimeMs f = Some mtimeMs /\ now - mtimeMs <= staleThreshold.
Proof.
  intro H. apply agent_of_file_Some in H.
  destruct H as (m & data & a_id & a_name & t_s & t_w & t_p & pane
                 & Hm & _ & _ & _ & _ & _ & _ & _ & Hage & ->).
  destruct Hage as [Habs | Hage]; [discriminate|].
  simpl. split.
  - apply Z.ltb_ge. exact Hage.
  - exists m. auto.
Qed.


(** A record is listed with stale files included as soon as it is
    listed without them. *)
Lemma agent_of_file_include (f : file) (a : AgentInfo) :
  agent_of_file now false f = Some a -> agent_of_file now true f = Some a.
Proof.
  unfold agent_of_file.
  destruct (f_mtimeMs f) as [m|]; [|discriminate].
  destruct (f_data f) as [data|]; [|discriminate].
  simpl. destruct (staleThreshold <? now - m); [discriminate | auto].
Qed.


End Directory.

(** ** Names that cannot be converted *)

Section Rendering.

Import Agents Outcome.

Lemma converts_Some (j : json) : converts j = true <-> exists s, to_string j = Some s.
Proof.
  unfold converts. destruct (to_string j) as [s|]; split; intro H;
    try discriminate; eauto. destruct H as (s' & H). discriminate.
Qed.

Lemma converts_None (j : json) : converts j = false <-> to_string j = None.
Proof.
  unfold converts. destruct (to_string j) as [s|]; split; intro H;
    try discriminate; auto.
Qed.

Lemma printable_spec (a : AgentInfo) :
  printable a = true
  <-> exists a_name a_id, to_string (name a) = Some a_name /\ to_string (id a) = Some a_id.
Proof.
  unfold printable. rewrite andb_true_iff, !converts_Some. split.
  - intros ((n & Hn) & (i & Hi)). eauto.
  - intros (n & i & Hn & Hi). eauto.
Qed.

Lemma discover_line_text (a : AgentInfo) (a_name a_id : string) :
  to_string (name a) = Some a_name -> to_string (id a) = Some a_id ->
  discover_line a
  = Some ("- " ++ a_name ++ " (" ++ a_id ++ "): "
          ++ (if is_stale a then "stale" else "active") ++ " | pane: "
          ++ (if (tmux_pane a =? "")%string then "unknown" else tmux_pane a)).
Proof.
  intros Hn Hi. unfold discover_line. now rewrite Hn, Hi.
Qed.

Lemma discover_line_None (a : AgentInfo) :
  printable a = false <-> discover_line a = None.
Proof.
  unfold printable, converts, discover_line.
  destruct (to_string (name a)), (to_string (id a)); simpl; split; intro H;
    try discriminate; reflexivity.
Qed.


Lemma discover_lines_printable (agents : list AgentInfo) :
  forallb printable agents = true <-> exists lines, discover_lines agents = Some lines.
Proof.
  induction agents as [|a agents IH]; simpl.
  - split; eauto.
  - rewrite andb_true_iff, IH. split.
    + intros [Ha (rest & Hrest)].
      apply printable_spec in Ha. destruct Ha as (n & i & Hn & Hi).
      rewrite (discover_line_text a n i Hn Hi), Hrest. eauto.
    + intros (lines & H).
      destruct (discover_line a) as [line|] eqn:Ea; [|discriminate].
      destruct (discover_lines agents) as [rest|]; [|discriminate].
      split; [|eauto].
      destruct (printable a) eqn:Ep; [reflexivity|].
      apply discover_line_None in Ep. congruence.
Qed.

Lemma discover_lines_unprintable (agents : list AgentInfo) :
  forallb printable agents = false <-> discover_lines agents = None.
Proof.
  split; intro H.
  - destruct (discover_lines agents) as [lines|] eqn:E; [|reflexivity].
    assert (Hp : forallb printable agents = true) by (apply discover_lines_printable; eauto).
    congruence.
  - destruct (forallb printable agents) eqn:E; [|reflexivity].
    apply discover_lines_printable in E. destruct E as (lines & E). congruence.
Qed.




Lemma reached_all (targets : list AgentInfo) :
  forallb printable_name targets = true -> reached targets = targets.
Proof.
  induction targets as [|t targets IH]; simpl; [reflexivity|].
  intro H. apply andb_true_iff in H. destruct H as [Ht H].
  rewrite Ht. f_equal. auto.
Qed.

(** When a name cannot be converted, the loop stops at the first such
    target. *)
Lemma reached_stops (targets : list AgentInfo) :
  forallb printable_name targets = false ->
  exists before t after,
    targets = (before ++ t :: after)%list
    /\ forallb printable_name before = true /\ printable_name t = false
    /\ reached targets = (before ++ [t])%list.
Proof.
  induction targets as [|t targets IH]; simpl; [discriminate|].
  destruct (printable_name t) eqn:Ht; simpl.
  - intro H. destruct (IH H) as (before & u & after & -> & Hb & Hu & Hr).
    exists (t :: before), u, after. simpl. rewrite Ht, Hb, Hr. auto.
  - intros _. exists [], t, targets. simpl. auto.
Qed.

Lemma reached_prefix (targets : list AgentInfo) :
  exists rest, targets = (reached targets ++ rest)%list.
Proof.
  destruct (forallb printable_name targets) eqn:E.
  - exists []. rewrite (reached_all _ E). now rewrite app_nil_r.
  - destruct (reached_stops _ E) as (before & t & after & Ht & _ & _ & Hr).
    exists after. rewrite Hr, <- app_assoc. exact Ht.
Qed.

End Rendering.

(** ** Broadcast and direct messages of the file-based server *)

Section Delivery.

Import Agents Outcome.

Variable snd_proc : snd_helper.

Lemma broadcast_loop_cons (formattedMsg : string) (target : AgentInfo)
      (rest : list AgentInfo) (results : list string) (log : list snd_call) :
  broadcast_loop snd_proc formattedMsg (target :: rest) results log
  = match delivery_line snd_proc log formattedMsg target with
    | Some line =>
        broadcast_loop snd_proc formattedMsg rest (results ++ [line])%list
          (log ++ [call_for formattedMsg target])%list
    | None => (inr unprintable, (log ++ [call_for formattedMsg target])%list)
    end.
Proof.
  unfold delivery_line, call_for. cbn [broadcast_loop]. unfold runSnd.
  destruct (snd_proc log _) as [[[|c|c]|]|err];
    destruct (to_string (name target)); reflexivity.
Qed.

Lemma delivery_line_printable (log : list snd_call) (formattedMsg : string)
      (target : AgentInfo) :
  printable_name target = true
  <-> exists line, delivery_line snd_proc log formattedMsg target = Some line.
Proof.
  unfold printable_name, converts, delivery_line.
  destruct (to_string (name target)); split; intro H; try discriminate; eauto.
  destruct H as (line & H). discriminate.
Qed.

(** The deliveries of the loop, whatever it answers: one to each target
    that it gets to, in order. *)
Lemma broadcast_loop_calls (formattedMsg : string) (targets : list AgentInfo) :
  forall results log,
    snd (broadcast_loop snd_proc formattedMsg targets results log)
    = (log ++ map (call_for formattedMsg) (reached targets))%list.
Proof.
  induction targets as [|target rest IH]; intros results log.
  - simpl. now rewrite app_nil_r.
  - rewrite broadcast_loop_cons. cbn [reached].
    destruct (printable_name target) eqn:Hp.
    + apply (delivery_line_printable log formattedMsg) in Hp.
      destruct Hp as (line & ->). rewrite IH. simpl. now rewrite <- app_assoc.
    + unfold printable_name, converts in Hp. unfold delivery_line.
      destruct (to_string (name target)); [discriminate | reflexivity].
Qed.

(** When every name can be converted, the loop tries every target, in
    order, whatever the earlier deliveries did, and reports one line
    for each. *)
Lemma broadcast_loop_spec (formattedMsg : string) (targets : list AgentInfo) :
  forallb printable_name targets = true ->
  forall results log,
  exists lines,
    broadcast_loop snd_proc formattedMsg targets results log
    = (inl (results ++ lines)%list, (log ++ map (call_for formattedMsg) targets)%list)
    /\ List.length lines = List.length targets
    /\ forall i t, nth_error targets i = Some t ->
         nth_error lines i
         = delivery_line snd_proc
             (log ++ firstn i (map (call_for formattedMsg) targets))%list
             formattedMsg t.
Proof.
  induction targets as [|target rest IH]; intros Hall results log.
  - exists []. simpl. rewrite !app_nil_r. repeat split.
    intros [|i] t H; discriminate.
  - simpl in Hall. apply andb_true_iff in Hall. destruct Hall as [Hp Hall].
    rewrite broadcast_loop_cons.
    apply (delivery_line_printable log formattedMsg) in Hp. destruct Hp as (line & Hline).
    rewrite Hline.
    destruct (IH Hall (results ++ [line])%list (log ++ [call_for formattedMsg target])%list)
      as (lines & Heq & Hlen & Hnth).
    exists (line :: lines).
    split; [|split].
    + rewrite Heq. rewrite <- !app_assoc. reflexivity.
    + simpl. now rewrite Hlen.
    + intros [|i] t Ht; simpl in *.
      * injection Ht as <-. now rewrite app_nil_r.
      * rewrite (Hnth i t Ht). rewrite <- app_assoc. reflexivity.
Qed.

(** When a name cannot be converted, the loop ends with the error of
    the conversion. *)
Lemma broadcast_loop_abort (formattedMsg : string) (targets : list AgentInfo) :
  forallb printable_name targets = false ->
  forall results log,
    fst (broadcast_loop snd_proc formattedMsg targets results log) = inr unprintable.
Proof.
  induction targets as [|target rest IH]; intros Hall results log; [discriminate|].
  cbn [forallb] in Hall. rewrite broadcast_loop_cons.
  destruct (printable_name target) eqn:Hp.
  - apply (delivery_line_printable log formattedMsg) in Hp. destruct Hp as (line & ->).
    apply IH. exact Hall.
  - unfold printable_name, converts in Hp. unfold delivery_line.
    destruct (to_string (name target)); [discriminate | reflexivity].
Qed.

Lemma is_target_spec (agent_id : string) (a : AgentInfo) :
  is_target agent_id a = true <-> id a <> JStr agent_id /\ tmux_pane a <> "".
Proof.
  unfold is_target. rewrite andb_true_iff, string_nonempty, negb_true_iff.
  split; intros [H1 H2]; split; auto.
  - intro E. apply strict_eq_string_true in E. congruence.
  - destruct (strict_eq_string (id a) agent_id) eqn:E; [|reflexivity].
    apply strict_eq_string_true in E. contradiction.
Qed.

(** The whole of [agentBroadcast], in terms of its target list. *)
Lemma agentBroadcast_spec (dir : directory) (now : Z) (args : AgentBroadcastArgs) :
  let targets := filter (is_target (bc_agent_id args)) (getActiveAgents dir now false) in
  let formattedMsg := "[" ++ senderName_of (bc_agent_id args) ++ "] " ++ bc_message args in
  (targets = [] ->
   agentBroadcast dir now snd_proc args = (inl "No other agents to broadcast to", []))
  /\ (targets <> [] -> forallb printable_name targets = true ->
      exists lines,
        agentBroadcast dir now snd_proc args
        = (inl (summary (List.length targets) lines), map (call_for formattedMsg) targets)
        /\ List.length lines = List.length targets
        /\ forall i t, nth_error targets i = Some t ->
             nth_error lines i
             = delivery_line snd_proc
                 (firstn i (map (call_for formattedMsg) targets)) formattedMsg t)
  /\ (forallb printable_name targets = false ->
      fst (agentBroadcast dir now snd_proc args) = inr unprintable)
  /\ snd (agentBroadcast dir now snd_proc args)
     = map (call_for formattedMsg) (reached targets).
Proof.
  intros targets formattedMsg. unfold agentBroadcast. fold targets. fold formattedMsg.
  split; [|split; [|split]].
  - intro E. rewrite E. reflexivity.
  - intros NE Hall.
    destruct (List.length targets =? 0)%nat eqn:Hz.
    { apply length_zero_nil in Hz. contradiction. }
    destruct (broadcast_loop_spec formattedMsg targets Hall [] [])
      as (lines & Heq & Hlen & Hnth).
    rewrite Heq. simpl. exists lines. repeat split; auto.
  - intro Hall.
    destruct (List.length targets =? 0)%nat eqn:Hz.
    { apply length_zero_nil in Hz. rewrite Hz in Hall. discriminate. }
    pose proof (broadcast_loop_abort formattedMsg targets Hall [] []) as H.
    destruct (broadcast_loop snd_proc formattedMsg targets [] []) as [[results|err] log];
      simpl in H; [discriminate|]. simpl. injection H as ->. reflexivity.
  - destruct (List.length targets =? 0)%nat eqn:Hz.
    { apply length_zero_nil in Hz. rewrite Hz. reflexivity. }
    pose proof (broadcast_loop_calls formattedMsg targets [] []) as H.
    destruct (broadcast_loop snd_proc formattedMsg targets [] []) as [[results|err] log];
      simpl in H; simpl; exact H.
Qed.

Lemma agentBroadcast_calls (dir : directory) (now : Z) (args : AgentBroadcastArgs) :
  snd (agentBroadcast dir now snd_proc args)
  = map (call_for ("[" ++ senderName_of (bc_agent_id args) ++ "] " ++ bc_message args))
        (reached (filter (is_target (bc_agent_id args)) (getActiveAgents dir now false))).
Proof.
  apply (agentBroadcast_spec dir now args).
Qed.


End Delivery.

(** ** The file-based server: targets, staleness, panes, names *)

Section AgentsClaims.

Import Agents Outcome.

Lemma getActiveAgents_fresh (dir : directory) (now : Z) (a : AgentInfo) :
  In a (getActiveAgents dir now false) -> is_stale a = false.
Proof.
  destruct dir as [entries|]; [|intros []].
  intro H. apply In_getActiveAgents in H. destruct H as (f & _ & _ & E).
  now apply agent_of_file_fresh in E.
Qed.

(** C1.  The targets of a broadcast are the agents that are listed
    without the stale ones, are not the sender and have a pane: these
    and no others.  The deliveries go to them, one each and in order:
    to all of them when every name can be converted to a string, and
    otherwise up to the first target whose name cannot, where the
    broadcast ends with the error of the conversion.  When there is no
    target, the answer is the sentence that says so and no delivery is
    made. *)
Theorem broadcast_target_set (dir : directory) (now : Z) (snd_proc : snd_helper)
        (args : AgentBroadcastArgs) :
  let targets := filter (is_target (bc_agent_id args)) (getActiveAgents dir now false) in
  let formattedMsg := "[" ++ senderName_of (bc_agent_id args) ++ "] " ++ bc_message args in
  (forall a, In a targets <->
             In a (getActiveAgents dir now false)
             /\ id a <> JStr (bc_agent_id args) /\ tmux_pane a <> "")
  /\ (forall a, In a (getActiveAgents dir now false) -> is_stale a = false)
  /\ snd (agentBroadcast dir now snd_proc args)
     = map (fun target => SndCall (tmux_pane target) formattedMsg) (reached targets)
  /\ (forallb printable_name targets = true ->
      reached targets = targets
      /\ exists text, fst (agentBroadcast dir now snd_proc args) = inl text)
  /\ (forallb printable_name targets = false ->
      fst (agentBroadcast dir now snd_proc args) = inr unprintable
      /\ exists before t after,
           targets = (before ++ t :: after)%list
           /\ forallb printable_name before = true /\ printable_name t = false
           /\ reached targets = (before ++ [t])%list)
  /\ (targets = [] ->
      agentBroadcast dir now snd_proc args = (inl "No other agents to broadcast to", [])).
Proof.
  intros targets formattedMsg.
  destruct (agentBroadcast_spec snd_proc dir now args) as (Hnil & Hall & Habort & Hcalls).
  fold targets in Hnil, Hall, Habort, Hcalls. fold formattedMsg in Hall, Hcalls.
  split; [|split; [|split; [|split; [|split]]]].
  - intro a. unfold targets. rewrite filter_In, is_target_spec. tauto.
  - apply getActiveAgents_fresh.
  - exact Hcalls.
  - intro Hp. split; [now apply reached_all|].
    destruct targets as [|t ts] eqn:E.
    + rewrite Hnil by reflexivity. simpl. eauto.
    + destruct Hall as (lines & Heq & _); [discriminate | exact Hp |].
      rewrite Heq. simpl. eauto.
  - intro Hp. split; [now apply Habort | now apply reached_stops].
  - exact Hnil.
Qed.

Lemma broadcast_target_set_witness :
  filter (is_target "alice-0a1b2c3d")
         (getActiveAgents (Some [Sample.alice; Sample.carol; Sample.dave]) Sample.t0 false)
  = []
  /\ agentBroadcast (Some [Sample.alice; Sample.carol; Sample.dave]) Sample.t0
       Sample.snd_bob_down
       {| bc_agent_id := "alice-0a1b2c3d"; bc_message := "anyone?"; bc_priority := Low |}
     = (inl "No other agents to broadcast to", []).
Proof.
  split; [reflexivity|].
  destruct (broadcast_target_set (Some [Sample.alice; Sample.carol; Sample.dave]) Sample.t0
              Sample.snd_bob_down
              {| bc_agent_id := "alice-0a1b2c3d"; bc_message := "anyone?";
                 bc_priority := Low |})
    as (_ & _ & _ & _ & _ & H).
  apply H. reflexivity.
Defined.

Lemma prop_not_null (data : json) (key : string) :
  data <> JNull -> exists v, prop data key = Some v.
Proof.
  destruct data; simpl; intro H; eauto. now destruct H.
Qed.












(** The bus server publishes a broadcast once, to the one subject, and
    answers with a fixed sentence, or throws what the publish threw. *)
Lemma bus_broadcast_spec (url : string) (cli : Nats.nats_cli) (now : Z)
      (args : Nats.AgentBroadcastArgs) :
  (exists payload,
      snd (Nats.agentBroadcast url cli now args)
      = [["-s"; url; "publish"; "agents.broadcast"; payload]])
  /\ (fst (Nats.agentBroadcast url cli now args) = inl "Broadcast sent"
      \/ exists e, fst (Nats.agentBroadcast url cli now args) = inr e).
Proof.
  unfold Nats.agentBroadcast, Nats.bind_publish, Nats.publish, Nats.runNatsCommand.
  cbn [Nats.pub_headers Nats.pub_subject Nats.pub_message app].
  split.
  - eexists. destruct (Nats.run_end _) as [[[|c|c]|]|err]; reflexivity.
  - destruct (Nats.run_end _) as [[[|c|c]|]|err]; simpl; eauto.
Qed.

(** C7, as amended.  In the file-based server a broadcast with targets
    whose names can be converted to strings delivers to every one of
    them, in order, whatever the earlier deliveries did, and answers
    with their number and one line for each: a tick and the name, or a
    cross, the name and the reason.  In the bus server a broadcast is
    one publish to [agents.broadcast]; the answer is ["Broadcast sent"],
    or the error of the publish. *)
Theorem broadcast_outcomes (dir : directory) (now : Z) (snd_proc : snd_helper)
        (args : AgentBroadcastArgs)
        (url : string) (cli : Nats.nats_cli) (bus_now : Z)
        (bus_args : Nats.AgentBroadcastArgs) :
  let targets := filter (is_target (bc_agent_id args)) (getActiveAgents dir now false) in
  let formattedMsg := "[" ++ senderName_of (bc_agent_id args) ++ "] " ++ bc_message args in
  (targets <> [] -> forallb printable_name targets = true ->
   exists lines,
     agentBroadcast dir now snd_proc args
     = (inl (summary (List.length targets) lines), map (call_for formattedMsg) targets)
     /\ List.length lines = List.length targets
     /\ forall i t, nth_error targets i = Some t ->
          exists target_name,
            to_string (name t) = Some target_name
            /\ nth_error lines i
               = Some match snd_proc (firstn i (map (call_for formattedMsg) targets))
                              (SndCall (tmux_pane t) formattedMsg) with
                      | Closed (Some 0) => "✓ " ++ target_name
                      | Closed code =>
                          "✗ " ++ target_name ++ ": Error: snd failed with code "
                          ++ code_to_string code
                      | SpawnError err =>
                          "✗ " ++ target_name ++ ": " ++ error_to_string err
                      end)
  /\ (exists payload,
         snd (Nats.agentBroadcast url cli bus_now bus_args)
         = [["-s"; url; "publish"; "agents.broadcast"; payload]])
  /\ (fst (Nats.agentBroadcast url cli bus_now bus_args) = inl "Broadcast sent"
      \/ exists e, fst (Nats.agentBroadcast url cli bus_now bus_args) = inr e).
Proof.
  intros targets formattedMsg. split.
  - intros NE Hall.
    destruct (agentBroadcast_spec snd_proc dir now args) as (_ & H & _).
    destruct (H NE Hall) as (lines & Heq & Hlen & Hnth).
    exists lines. split; [exact Heq|]. split; [exact Hlen|].
    intros i t Ht. rewrite (Hnth i t Ht).
    assert (Hp : printable_name t = true).
    { fold targets in Hall. rewrite forallb_forall in Hall. apply Hall.
      eapply nth_error_In; eauto. }
    apply converts_Some in Hp. destruct Hp as (n & Hn).
    exists n. split; [exact Hn|]. unfold delivery_line. rewrite Hn. reflexivity.
  - apply bus_broadcast_spec.
Qed.

Lemma broadcast_outcomes_witness :
  filter (is_target "carol-55667788") (getActiveAgents Sample.tmp Sample.t0 false) <> []
  /\ exists lines,
       agentBroadcast Sample.tmp Sample.t0 Sample.snd_bob_down Sample.hello_from_carol
       = (inl (summary 2 lines),
          [SndCall "main:1.0" "[carol] hello"; SndCall "main:1.1" "[carol] hello"])
       /\ nth_error lines 0 = Some "✓ alice"
       /\ nth_error lines 1 = Some "✗ bob: Error: snd failed with code 1".
Proof.
  split; [discriminate|].
  destruct (broadcast_outcomes Sample.tmp Sample.t0 Sample.snd_bob_down
              Sample.hello_from_carol Sample.url Sample.cli_ok Sample.t0 Sample.bus_hello)
    as (H & _).
  destruct H as (lines & Heq & _ & Hnth); [discriminate | reflexivity |].
  exists lines. split; [exact Heq|]. split.
  - destruct (Hnth 0%nat _ eq_refl) as (n & Hn & Hline).
    injection Hn as <-. exact Hline.
  - destruct (Hnth 1%nat _ eq_refl) as (n & Hn & Hline).
    injection Hn as <-. exact Hline.
Defined.

(** C7, as it was stated, fails for the bus server: the answer to a
    broadcast that was published is no summary of targets. *)
Lemma bus_broadcast_no_summary :
  ~ exists count lines,
      fst (Nats.agentBroadcast Sample.url Sample.cli_ok Sample.t0 Sample.bus_hello)
      = inl (summary count lines).
Proof.
  intros (count & lines & H). vm_compute in H. discriminate H.
Qed.

(** *** Resolution of the target of a direct message *)

Lemma find_split {A : Type} (test : A -> bool) (l : list A) (x : A) :
  find test l = Some x ->
  exists before after,
    l = (before ++ x :: after)%list /\ test x = true
    /\ forall b, In b before -> test b = false.
Proof.
  induction l as [|y l IH]; simpl; [discriminate|].
  destruct (test y) eqn:E.
  - intro H. injection H as <-. exists [], l. repeat split; auto. intros b [].
  - intro H. destruct (IH H) as (before & after & -> & Hx & Hb).
    exists (y :: before), after. repeat split; auto.
    intros b [<- | Hin]; auto.
Qed.

(** What [agentDM] does with its [to]: the first listed agent whose id
    is the reference, and nothing else. *)
Lemma agentDM_not_found (dir : directory) (now : Z) (snd_proc : snd_helper)
      (args : AgentDMArgs) :
  (forall a, In a (getActiveAgents dir now false) -> id a <> JStr (dm_to args)) ->
  agentDM dir now snd_proc args = ("Agent " ++ dm_to args ++ " not found", []).
Proof.
  intro H. unfold agentDM.
  destruct (find _ _) as [target|] eqn:E; [|reflexivity].
  apply find_some in E. destruct E as [Hin Heq].
  apply strict_eq_string_true in Heq. destruct (H target Hin Heq).
Qed.

(** A direct message that finds its target and a pane makes one call of
    the helper. *)
Lemma agentDM_found (dir : directory) (now : Z) (snd_proc : snd_helper)
      (args : AgentDMArgs) (target : AgentInfo) :
  find (fun a => strict_eq_string (id a) (dm_to args)) (getActiveAgents dir now false)
  = Some target ->
  tmux_pane target <> "" ->
  snd (agentDM dir now snd_proc args)
  = [SndCall (tmux_pane target)
       ("[DM from " ++ senderName_of (dm_agent_id args) ++ "] " ++ dm_message args)].
Proof.
  intros Hfind Hpane. unfold agentDM. rewrite Hfind.
  apply String.eqb_neq in Hpane. rewrite Hpane. unfold runSnd. simpl.
  destruct (snd_proc [] _) as [[[|z|z]|]|err]; simpl;
    try destruct (to_string (name target)); reflexivity.
Qed.

(** C3, as amended.  The target of a direct message is the first listed
    agent whose id is the reference [to], compared as a whole: when no
    listed agent has that id the answer is not found, and only then;
    when one has, the message goes to the pane of the first such agent,
    or the answer says that it has none.  No name is compared. *)
Theorem dm_resolves_by_id (dir : directory) (now : Z) (snd_proc : snd_helper)
        (args : AgentDMArgs) :
  let agents := getActiveAgents dir now false in
  let formattedMsg :=
    "[DM from " ++ senderName_of (dm_agent_id args) ++ "] " ++ dm_message args in
  ((forall a, In a agents -> id a <> JStr (dm_to args))
   <-> agentDM dir now snd_proc args = ("Agent " ++ dm_to args ++ " not found", []))
  /\ ((exists a, In a agents /\ id a = JStr (dm_to args)) ->
      exists before target after,
        agents = (before ++ target :: after)%list
        /\ id target = JStr (dm_to args)
        /\ (forall b, In b before -> id b <> JStr (dm_to args))
        /\ (tmux_pane target = "" ->
            agentDM dir now snd_proc args
            = ("Agent " ++ dm_to args ++ " has no tmux pane", []))
        /\ (tmux_pane target <> "" ->
            snd (agentDM dir now snd_proc args)
            = [SndCall (tmux_pane target) formattedMsg])).
Proof.
  intros agents formattedMsg. split; [split|].
  - apply agentDM_not_found.
  - intros Hanswer a Hin Hid.
    destruct (find (fun a => strict_eq_string (id a) (dm_to args)) agents)
      as [target|] eqn:Hfind.
    + destruct (String.eqb_spec (tmux_pane target) "") as [Hp | Hp].
      * unfold agentDM in Hanswer. fold agents in Hanswer.
        rewrite Hfind, Hp in Hanswer. simpl in Hanswer.
        injection Hanswer as Hanswer. apply append_cancel_l in Hanswer.
        discriminate Hanswer.
      * pose proof (agentDM_found dir now snd_proc args target Hfind Hp) as Hcall.
        rewrite Hanswer in Hcall. discriminate Hcall.
    + apply (find_none _ _ Hfind) in Hin. simpl in Hin.
      apply strict_eq_string_true in Hid. congruence.
  - intros (a & Hin & Hid).
    destruct (find (fun a => strict_eq_string (id a) (dm_to args)) agents)
      as [target|] eqn:Hfind.
    + destruct (find_split _ _ _ Hfind) as (before & after & Hsplit & Ht & Hb).
      exists before, target, after. split; [exact Hsplit|].
      split; [now apply strict_eq_string_true|]. split; [|split].
      * intros b Hbin E. apply strict_eq_string_true in E.
        rewrite (Hb b Hbin) in E. discriminate.
      * intro Hp. unfold agentDM. fold agents. rewrite Hfind, Hp. reflexivity.
      * intro Hp. exact (agentDM_found dir now snd_proc args target Hfind Hp).
    + apply (find_none _ _ Hfind) in Hin. simpl in Hin.
      apply strict_eq_string_true in Hid. congruence.
Qed.

(** C3, as it was stated, fails: with bob listed as [bob-11223344], the
    one agent of that name, a message to [bob] is answered with not
    found and nothing is delivered, while the same message to the full
    id is delivered. *)
Lemma dm_short_name_unresolved :
  agentDM Sample.tmp Sample.t0 Sample.snd_ok
          {| dm_agent_id := "alice-0a1b2c3d"; dm_to := "bob"; dm_message := "ping" |}
  = ("Agent bob not found", [])
  /\ agentDM Sample.tmp Sample.t0 Sample.snd_ok
             {| dm_agent_id := "alice-0a1b2c3d"; dm_to := "bob-11223344";
                dm_message := "ping" |}
     = ("DM sent to bob", [SndCall "main:1.1" "[DM from alice] ping"])
  /\ map name (filter (fun a => strict_eq_string (name a) "bob")
                      (getActiveAgents Sample.tmp Sample.t0 false))
     = [JStr "bob"].
Proof.
  repeat split.
Qed.

(** *** The name of the sender *)

Lemma hd_split_app (c : ascii) (s rest : string) :
  (forall i, String.get i s <> Some c) ->
  hd "" (split c (s ++ String c rest)) = s.
Proof.
  induction s as [|a s IH]; intro H; simpl.
  - now rewrite Ascii.eqb_refl.
  - destruct (Ascii.eqb a c) eqn:E.
    + apply Ascii.eqb_eq in E. subst. destruct (H 0%nat). reflexivity.
    + specialize (IH (fun i => H (S i))).
      destruct (split c (s ++ String c rest)) as [|h t]; simpl in *; congruence.
Qed.

Lemma hd_split_free (c : ascii) (s : string) (i : nat) :
  String.get i (hd "" (split c s)) <> Some c.
Proof.
  revert i. induction s as [|a s IH]; intro i; simpl.
  - destruct i; discriminate.
  - destruct (Ascii.eqb a c) eqn:E; simpl.
    + destruct i; discriminate.
    + destruct (split c s) as [|h t]; simpl in *.
      * destruct i as [|[|i]]; simpl; try discriminate.
        intro H. injection H as ->. now rewrite Ascii.eqb_refl in E.
      * destruct i as [|i]; simpl; [|apply IH].
        intro H. injection H as ->. now rewrite Ascii.eqb_refl in E.
Qed.

(** The name that the messages show never holds a hyphen: it is not the
    registered name as soon as that name has one. *)
Lemma senderName_of_hyphenated (random : entropy) (agent_name : string) (i : nat) :
  String.get i agent_name = Some "-"%char ->
  senderName_of (generateAgentId random agent_name) <> agent_name.
Proof.
  intros H E. rewrite <- E in H. exact (hd_split_free _ _ _ H).
Qed.

(** The name that the messages show is the registered name when that
    name has no hyphen. *)
Lemma senderName_of_plain (random : entropy) (agent_name : string) :
  (forall i, String.get i agent_name <> Some "-"%char) ->
  senderName_of (generateAgentId random agent_name) = agent_name.
Proof.
  intro H. unfold senderName_of, generateAgentId. now apply hd_split_app.
Qed.

(** C4.  For an agent registered as [test-agent-1] the id is
    [test-agent-1-0a1b2c3d], and the name that its messages show is
    [test]: what stands before the first hyphen of the id, not what
    stands before the generated suffix. *)
Theorem sender_name_first_hyphen :
  generateAgentId Sample.random "test-agent-1" = "test-agent-1-0a1b2c3d"
  /\ senderName_of "test-agent-1-0a1b2c3d" = "test"
  /\ snd (agentBroadcast Sample.tmp Sample.t0 Sample.snd_ok
            {| bc_agent_id := "test-agent-1-0a1b2c3d"; bc_message := "hello";
               bc_priority := Normal |})
     = [SndCall "main:1.0" "[test] hello"; SndCall "main:1.1" "[test] hello"]
  /\ snd (agentDM Sample.tmp Sample.t0 Sample.snd_ok
            {| dm_agent_id := "test-agent-1-0a1b2c3d"; dm_to := "bob-11223344";
               dm_message := "hello" |})
     = [SndCall "main:1.1" "[DM from test] hello"].
Proof.
  repeat split.
Qed.

(** *** Registration *)

Lemma call_tool_directory (dir : directory) (now : Z) (random : entropy)
      (snd_proc : snd_helper) (tool : string) (args : json) :
  snd (call_tool dir now random snd_proc tool args) = dir.
Proof.
  unfold call_tool.
  repeat match goal with
         | |- context [if ?b then _ else _] => destruct b
         | |- context [match ?o with Some _ => _ | None => _ end] => destruct o
         | |- context [let '(_, _) := ?p in _] => destruct p
         | |- context [match ?r with inl _ => _ | inr _ => _ end] => destruct r
         end; reflexivity.
Qed.

(** C5.  Registering bobby in an empty directory returns the id
    [bobby-0a1b2c3d] and leaves the directory empty: a discovery that
    follows finds no agent.  The registration of the bus server does
    publish the record, with the time of the call. *)
Theorem register_not_persisted :
  call_tool (Some []) Sample.t0 Sample.random Sample.snd_ok "agent_register"
            (JObj [("name", JStr "bobby"); ("description", JStr "helper")])
  = (Text (JSON_stringify
             (JObj [("agent_id", JStr "bobby-0a1b2c3d");
                    ("message",
                     JStr "Registered. Use this agent_id for all subsequent calls.")])),
     [], Some [])
  /\ call_tool (Some []) (Sample.t0 + 1) Sample.random Sample.snd_ok "agent_discover"
               (JObj [("include_stale", JBool true)])
     = (Text "No agents currently registered.", [], Some [])
  /\ snd (Nats.agentRegister Sample.url Sample.cli_ok Sample.t0 Sample.random
            {| Nats.reg_name := "bobby"; Nats.reg_description := "helper" |})
     = [["-s"; "nats://localhost:4222"; "publish"; "agents.register";
         JSON_stringify
           (JObj [("id", JStr "bobby-0a1b2c3d"); ("name", JStr "bobby");
                  ("description", JStr "helper"); ("ts", JNum Sample.t0)])]].
Proof.
  repeat split.
Qed.

(** *** Groups *)

(** C6, as amended.  A broadcast has no group: a key [group] in the
    request, wherever it stands, changes neither what the schema of a
    broadcast or of a registration returns nor what the tool does; a
    key [group] in a presence file changes nothing in its record; and
    the targets are all the listed agents that are not the sender and
    have a pane, the deliveries going to those that the loop gets
    to. *)
Theorem broadcast_has_no_group (dir : directory) (now : Z) (random : entropy)
        (snd_proc : snd_helper) (g : json) (before after : list (string * json)) :
  let with_group := JObj (before ++ ("group", g) :: after)%list in
  let without := JObj (before ++ after)%list in
  AgentBroadcastSchema with_group = AgentBroadcastSchema without
  /\ AgentRegisterSchema with_group = AgentRegisterSchema without
  /\ call_tool dir now random snd_proc "agent_broadcast" with_group
     = call_tool dir now random snd_proc "agent_broadcast" without
  /\ call_tool dir now random snd_proc "agent_register" with_group
     = call_tool dir now random snd_proc "agent_register" without
  /\ (forall includeStale f,
         f_data f = Some with_group ->
         agent_of_file now includeStale f
         = agent_of_file now includeStale
             {| f_name := f_name f; f_mtimeMs := f_mtimeMs f; f_data := Some without |})
  /\ (forall args a,
         In a (filter (is_target (bc_agent_id args)) (getActiveAgents dir now false))
         <-> In a (getActiveAgents dir now false)
             /\ id a <> JStr (bc_agent_id args) /\ tmux_pane a <> "")
  /\ (forall args,
         snd (agentBroadcast dir now snd_proc args)
         = map (call_for ("[" ++ senderName_of (bc_agent_id args) ++ "] "
                              ++ bc_message args))
               (reached (filter (is_target (bc_agent_id args))
                                (getActiveAgents dir now false)))).
Proof.
  intros with_group without.
  assert (Hb : AgentBroadcastSchema with_group = AgentBroadcastSchema without).
  { unfold with_group, without, AgentBroadcastSchema, fields_of.
    rewrite !lookup_other by discriminate. reflexivity. }
  assert (Hr : AgentRegisterSchema with_group = AgentRegisterSchema without).
  { unfold with_group, without, AgentRegisterSchema, fields_of.
    rewrite !lookup_other by discriminate. reflexivity. }
  split; [exact Hb|]. split; [exact Hr|]. split; [|split; [|split; [|split]]].
  - unfold call_tool. simpl. now rewrite Hb.
  - unfold call_tool. simpl. now rewrite Hr.
  - intros includeStale f Hdata. unfold agent_of_file. rewrite Hdata. simpl.
    rewrite !lookup_other by discriminate. reflexivity.
  - intros args a. rewrite filter_In, is_target_spec. tauto.
  - intro args. apply agentBroadcast_calls.
Qed.

(** C6, as it was stated, fails: a broadcast of alice that names the
    group research is parsed into arguments without a group and is
    delivered to bob, whose presence file and whose registration name no
    group. *)
Lemma broadcast_group_not_applied :
  AgentBroadcastSchema Sample.to_research
  = Some {| bc_agent_id := "alice-0a1b2c3d"; bc_message := "hi"; bc_priority := Normal |}
  /\ call_tool Sample.tmp Sample.t0 Sample.random Sample.snd_ok "agent_broadcast"
               Sample.to_research
     = (Text ("Broadcast sent to 1 agent(s):" ++ nl ++ "✓ bob"),
        [SndCall "main:1.1" "[alice] hi"],
        Sample.tmp)
  /\ match f_data Sample.bob with
     | Some data => prop data "group"
     | None => None
     end = Some None
  /\ AgentRegisterSchema
       (JObj [("name", JStr "bob"); ("description", JStr "helper");
              ("group", JStr "research")])
     = Some {| reg_name := "bob"; reg_description := "helper" |}.
Proof.
  repeat split.
Qed.

End AgentsClaims.

(** ** The bus server: checking for messages *)

Section NatsClaims.

Import Nats Outcome.

Lemma subscribe_settle_bound (delay : Z) (events : list (Z * proc_event)) :
  forall stdout, settled_at (subscribe_settle delay events stdout) <= delay.
Proof.
  induction events as [|[t ev] rest IH]; intro stdout; simpl.
  - lia.
  - destruct (delay <=? t) eqn:E; simpl; [lia|].
    apply Z.leb_gt in E. destruct ev; simpl; [apply IH | lia | lia].
Qed.

Lemma promise_all2_bound {A B : Type} (p : settled A) (q : settled B) (bound : Z) :
  settled_at p <= bound -> settled_at q <= bound ->
  settled_at (promise_all2 p q) <= bound.
Proof.
  intros Hp Hq. unfold promise_all2.
  destruct (outcome p), (outcome q); simpl; try lia.
  destruct (settled_at p <=? settled_at q); simpl; lia.
Qed.

Lemma promise_all2_outcome {A B : Type} (p : settled A) (q : settled B) :
  match outcome p, outcome q with
  | inl a, inl b => outcome (promise_all2 p q) = inl (a, b)
  | _, _ => exists e, outcome (promise_all2 p q) = inr e
  end.
Proof.
  unfold promise_all2.
  destruct (outcome p), (outcome q); simpl; eauto.
  destruct (settled_at p <=? settled_at q); simpl; eauto.
Qed.

(** A subscription on which nothing arrives ends with one of the two
    sentences that say so. *)
Lemma subscribe_settle_quiet (delay : Z) (events : list (Z * proc_event)) :
  forallb quiet events = true ->
  outcome (subscribe_settle delay events "") = inl "No messages"
  \/ outcome (subscribe_settle delay events "") = inl "No messages received".
Proof.
  induction events as [|[t ev] rest IH]; simpl; intro H.
  - right. reflexivity.
  - destruct (delay <=? t); [right; reflexivity|].
    apply andb_true_iff in H. destruct H as [Hq Hrest].
    destruct ev as [chunk|code|err]; unfold quiet in Hq; simpl in Hq.
    + apply String.eqb_eq in Hq. subst chunk. simpl. now apply IH.
    + left. reflexivity.
    + discriminate.
Qed.

Lemma render_messages_cases (dms broadcasts : string) :
  render_messages dms broadcasts
  = match is_message dms, is_message broadcasts with
    | true, true => "[DMs]" ++ nl ++ dms ++ nl ++ nl ++ "[Broadcasts]" ++ nl ++ broadcasts
    | true, false => "[DMs]" ++ nl ++ dms
    | false, true => "[Broadcasts]" ++ nl ++ broadcasts
    | false, false => "No messages"
    end.
Proof.
  unfold render_messages.
  destruct (is_message dms), (is_message broadcasts); reflexivity.
Qed.

(** C8, as amended.  [agentCheckMessages] creates the subscription to
    the agent's subject and the one to the broadcast subject together,
    each for ten messages and with the same timeout: the caller's, or
    5000 ms when the caller's is 0.  Each settles within the delay of
    that timer, and so does the call: the budget is one, not the sum of
    two, and it is the timeout itself when that is a delay that
    [setTimeout] takes as it is.  When both are fulfilled the answer holds the block of each
    subscription that brought something, the direct messages first; it
    is ["No messages"] when neither did, as when nothing arrived on
    either.  When one is rejected the call is rejected. *)
Theorem check_messages_shared_timeout (url : string) (stream : nats_stream)
        (args : AgentCheckMessagesArgs) :
  let timeout := if cm_timeout args =? 0 then 5000 else cm_timeout args in
  let dm_sub := fst (check_subscriptions args) in
  let bc_sub := snd (check_subscriptions args) in
  let dms := subscribe url stream dm_sub in
  let broadcasts := subscribe url stream bc_sub in
  let answer := agentCheckMessages url stream args in
  dm_sub = {| sub_subject := "agents.dm." ++ cm_agent_id args; sub_count := 10;
              sub_timeout := timeout |}
  /\ bc_sub = {| sub_subject := "agents.broadcast"; sub_count := 10;
                 sub_timeout := timeout |}
  /\ settled_at dms <= setTimeout_delay timeout
  /\ settled_at broadcasts <= setTimeout_delay timeout
  /\ settled_at answer <= setTimeout_delay timeout
  /\ (1 <= timeout <= 2147483647 -> settled_at answer <= timeout)
  /\ match outcome dms, outcome broadcasts with
     | inl d, inl b =>
         outcome answer
         = inl (match is_message d, is_message b with
                | true, true => "[DMs]" ++ nl ++ d ++ nl ++ nl ++ "[Broadcasts]" ++ nl ++ b
                | true, false => "[DMs]" ++ nl ++ d
                | false, true => "[Broadcasts]" ++ nl ++ b
                | false, false => "No messages"
                end)
     | _, _ => exists e, outcome answer = inr e
     end
  /\ (forallb quiet (stream (subscribe_argv url dm_sub)) = true ->
      forallb quiet (stream (subscribe_argv url bc_sub)) = true ->
      outcome answer = inl "No messages").
Proof.
  intros timeout dm_sub bc_sub dms broadcasts answer.
  assert (Ht : num_or (cm_timeout args) 5000 = timeout) by reflexivity.
  assert (Hdm : dm_sub = {| sub_subject := "agents.dm." ++ cm_agent_id args;
                            sub_count := 10; sub_timeout := timeout |}) by reflexivity.
  assert (Hbc : bc_sub = {| sub_subject := "agents.broadcast"; sub_count := 10;
                            sub_timeout := timeout |}) by reflexivity.
  assert (Heff : num_or timeout 5000 = timeout).
  { unfold num_or, timeout. destruct (cm_timeout args =? 0) eqn:E; [reflexivity|].
    now rewrite E. }
  assert (Bdm : settled_at dms <= setTimeout_delay timeout).
  { unfold dms, subscribe. rewrite Hdm. simpl sub_timeout. rewrite Heff.
    apply subscribe_settle_bound. }
  assert (Bbc : settled_at broadcasts <= setTimeout_delay timeout).
  { unfold broadcasts, subscribe. rewrite Hbc. simpl sub_timeout. rewrite Heff.
    apply subscribe_settle_bound. }
  assert (Hans : answer
                 = {| settled_at := settled_at (promise_all2 dms broadcasts);
                      outcome := match outcome (promise_all2 dms broadcasts) with
                                 | inl (d, b) => inl (render_messages d b)
                                 | inr e => inr e
                                 end |}) by reflexivity.
  assert (Hout : match outcome dms, outcome broadcasts with
                 | inl d, inl b => outcome answer = inl (render_messages d b)
                 | _, _ => exists e, outcome answer = inr e
                 end).
  { rewrite Hans. cbn [outcome].
    pose proof (promise_all2_outcome dms broadcasts) as H.
    destruct (outcome dms) as [d|e1], (outcome broadcasts) as [b|e2].
    - now rewrite H.
    - destruct H as (e & ->). eauto.
    - destruct H as (e & ->). eauto.
    - destruct H as (e & ->). eauto. }
  assert (Bans : settled_at answer <= setTimeout_delay timeout).
  { rewrite Hans. simpl settled_at. now apply promise_all2_bound. }
  repeat (split; [assumption|]).
  split; [|split].
  - intros [Hlo Hhi]. unfold setTimeout_delay in Bans.
    replace (timeout <? 1) with false in Bans by (symmetry; apply Z.ltb_ge; lia).
    replace (2147483647 <? timeout) with false in Bans by (symmetry; apply Z.ltb_ge; lia).
    exact Bans.
  - destruct (outcome dms), (outcome broadcasts); auto.
    now rewrite <- render_messages_cases.
  - intros Qdm Qbc.
    pose proof (subscribe_settle_quiet (setTimeout_delay (num_or (sub_timeout dm_sub) 5000))
                  _ Qdm) as Rdm.
    pose proof (subscribe_settle_quiet (setTimeout_delay (num_or (sub_timeout bc_sub) 5000))
                  _ Qbc) as Rbc.
    fold (subscribe url stream dm_sub) in Rdm. fold dms in Rdm.
    fold (subscribe url stream bc_sub) in Rbc. fold broadcasts in Rbc.
    destruct Rdm as [Rdm | Rdm], Rbc as [Rbc | Rbc];
      rewrite Rdm, Rbc in Hout; exact Hout.
Qed.

Lemma check_messages_shared_timeout_witness :
  settled_at (agentCheckMessages Sample.url Sample.nothing_arrives Sample.check_200) <= 200
  /\ outcome (agentCheckMessages Sample.url Sample.nothing_arrives Sample.check_200)
     = inl "No messages".
Proof.
  destruct (check_messages_shared_timeout Sample.url Sample.nothing_arrives Sample.check_200)
    as (_ & _ & _ & _ & _ & Hat & _ & Hquiet).
  split; [apply Hat; simpl; lia|]. apply Hquiet; reflexivity.
Defined.

(** C8, as it was stated, fails for a caller whose timeout is 0: both
    subscriptions get 5000 ms and, when nothing arrives, the call takes
    5000 ms to say so. *)
Lemma check_messages_zero_timeout :
  sub_timeout (fst (check_subscriptions Sample.check_now)) = 5000
  /\ sub_timeout (snd (check_subscriptions Sample.check_now)) = 5000
  /\ agentCheckMessages Sample.url Sample.nothing_arrives Sample.check_now
     = {| settled_at := 5000; outcome := inl "No messages" |}
  /\ ~ settled_at (agentCheckMessages Sample.url Sample.nothing_arrives Sample.check_now)
       <= cm_timeout Sample.check_now.
Proof.
  repeat split. vm_compute. intro H. now apply H.
Qed.

End NatsClaims.

(** ** The resolver and the ledger *)

Section LedgerClaims.

Import Ledger.

Variable p : policy.

Lemma resolve_exact_id (reference : string) (candidates : list AgentRecord)
      (r : AgentRecord) :
  find (fun c => (id c =? reference)%string) candidates = Some r ->
  resolve p reference candidates = Resolved r /\ id r = reference.
Proof.
  intro H. unfold resolve. rewrite H. split; [reflexivity|].
  apply find_some in H. now apply String.eqb_eq.
Qed.

Lemma resolve_sole_name (reference : string) (candidates : list AgentRecord)
      (r : AgentRecord) :
  (forall c, In c candidates -> id c <> reference) ->
  filter (fun c => (name c =? reference)%string) candidates = [r] ->
  resolve p reference candidates = Resolved r.
Proof.
  intros Hid Hname. unfold resolve.
  destruct (find _ candidates) as [c|] eqn:E.
  - apply find_some in E. destruct E as [Hin Heq].
    apply String.eqb_eq in Heq. destruct (Hid c Hin Heq).
  - now rewrite Hname.
Qed.

Lemma resolve_not_found (reference : string) (candidates : list AgentRecord) :
  (forall c, In c candidates -> id c <> reference /\ name c <> reference) ->
  resolve p reference candidates = NotFound.
Proof.
  intro H. unfold resolve.
  destruct (find _ candidates) as [c|] eqn:E.
  - apply find_some in E. destruct E as [Hin Heq].
    apply String.eqb_eq in Heq. destruct (H c Hin) as [Hid _]. contradiction.
  - destruct (filter _ candidates) as [|c rest] eqn:F; [reflexivity|].
    assert (Hc : In c (filter (fun c => (name c =? reference)%string) candidates)).
    { rewrite F. now left. }
    apply filter_In in Hc. destruct Hc as [Hin Heq].
    apply String.eqb_eq in Heq. destruct (H c Hin) as [_ Hname]. contradiction.
Qed.

Lemma most_recent_entries_incl {A : Type} (limit : nat) (l : list A) (x : A) :
  In x (most_recent_entries limit l) -> In x l.
Proof.
  unfold most_recent_entries. intro H.
  rewrite <- (firstn_skipn (List.length l - limit) l).
  apply in_or_app. now right.
Qed.

(** The most recent entries are the end of the list, as many as the
    limit allows. *)
Lemma most_recent_entries_suffix {A : Type} (limit : nat) (l : list A) :
  exists older,
    l = (older ++ most_recent_entries limit l)%list
    /\ List.length (most_recent_entries limit l) = Nat.min limit (List.length l).
Proof.
  unfold most_recent_entries. exists (firstn (List.length l - limit) l). split.
  - now rewrite firstn_skipn.
  - rewrite length_skipn. lia.
Qed.

Lemma between_spec (a b : string) (e : Envelope) :
  between a b e = true
  <-> (from e = a /\ to e = Some b) \/ (from e = b /\ to e = Some a).
Proof.
  unfold between, opt_is.
  rewrite orb_true_iff, !andb_true_iff, !String.eqb_eq.
  destruct (to e) as [t|]; [rewrite !String.eqb_eq|].
  - split; intros [[H1 H2] | [H1 H2]]; subst; auto; injection H2 as ->; auto.
  - split; intros [[H1 H2] | [H1 H2]]; discriminate.
Qed.

(** C9.  [dm_history] resolves the reference first: by the full id,
    otherwise by the name when one agent has it; what is not resolved
    is answered as such.  Once the reference is resolved to a record,
    the conversation is made of the entries of the ledger that one of
    the two agents sent to the other, in the order of the ledger, and
    the answer is its end, as many entries as the limit allows; when
    that is nothing, the answer is no empty list but the sentence that
    names the agent asked for. *)
Theorem dm_history_resolved (candidates : list AgentRecord) (l : ledger)
        (agent_a reference : string) (limit : nat) :
  (forall r, find (fun c => (id c =? reference)%string) candidates = Some r ->
             resolve p reference candidates = Resolved r /\ id r = reference)
  /\ (forall r, (forall c, In c candidates -> id c <> reference) ->
                filter (fun c => (name c =? reference)%string) candidates = [r] ->
                resolve p reference candidates = Resolved r)
  /\ (forall b, resolve p reference candidates = Resolved b ->
        let conversation := filter (between agent_a (id b)) l in
        (forall e, In e conversation <->
                   In e l /\ ((from e = agent_a /\ to e = Some (id b))
                              \/ (from e = id b /\ to e = Some agent_a)))
        /\ (conversation = [] \/ limit = 0%nat ->
            dm_history p candidates l agent_a reference limit
            = NoHistory ("No DM history with " ++ reference))
        /\ (conversation <> [] -> limit <> 0%nat ->
            exists older entries,
              dm_history p candidates l agent_a reference limit = History entries
              /\ conversation = (older ++ entries)%list
              /\ List.length entries = Nat.min limit (List.length conversation)
              /\ entries <> []))
  /\ (forall why, resolve p reference candidates = why ->
        (forall b, why <> Resolved b) ->
        dm_history p candidates l agent_a reference limit = Unresolved why).
Proof.
  split; [intros r H; now apply resolve_exact_id|].
  split; [intros r H1 H2; now apply resolve_sole_name|].
  split.
  - intros b Hres conversation.
    assert (Hcases : dm_history p candidates l agent_a reference limit
                     = match most_recent_entries limit conversation with
                       | [] => NoHistory ("No DM history with " ++ reference)
                       | e :: es => History (e :: es)
                       end).
    { unfold dm_history. rewrite Hres. fold conversation.
      destruct (most_recent_entries limit conversation); reflexivity. }
    destruct (most_recent_entries_suffix limit conversation) as (older & Hsplit & Hlen).
    split; [|split].
    + intro e. unfold conversation. rewrite filter_In, between_spec. tauto.
    + intro Hnone. rewrite Hcases.
      destruct (most_recent_entries limit conversation) as [|e es]; [reflexivity|].
      simpl in Hlen. destruct Hnone as [Hnone | Hnone]; rewrite Hnone in Hlen;
        simpl in Hlen; lia.
    + intros Hsome Hlimit. rewrite Hcases.
      destruct (most_recent_entries limit conversation) as [|e es].
      * simpl in Hlen. destruct conversation; [contradiction | simpl in Hlen; lia].
      * exists older, (e :: es). repeat split; auto. discriminate.
  - intros why Hres Hnot. unfold dm_history. rewrite Hres.
    destruct why as [b| |]; [destruct (Hnot b eq_refl) | reflexivity | reflexivity].
Qed.

End LedgerClaims.

Lemma dm_history_resolved_witness :
  Ledger.resolve Ledger.MostRecentlySeen "bob" [Sample.alice_record; Sample.bob_record]
  = Ledger.Resolved Sample.bob_record
  /\ Ledger.dm_history Ledger.MostRecentlySeen [Sample.alice_record; Sample.bob_record]
       [] "alice-0a1b2c3d" "bob" 50
     = Ledger.NoHistory "No DM history with bob"
  /\ exists older entries,
       Ledger.dm_history Ledger.MostRecentlySeen [Sample.alice_record; Sample.bob_record]
         Sample.talk "alice-0a1b2c3d" "bob" 1
       = Ledger.History entries
       /\ filter (Ledger.between "alice-0a1b2c3d" "bob-11223344") Sample.talk
          = (older ++ entries)%list
       /\ List.length entries = 1%nat.
Proof.
  destruct (dm_history_resolved Ledger.MostRecentlySeen
              [Sample.alice_record; Sample.bob_record] [] "alice-0a1b2c3d" "bob" 50)
    as (_ & Hname & Hempty & _).
  destruct (dm_history_resolved Ledger.MostRecentlySeen
              [Sample.alice_record; Sample.bob_record] Sample.talk "alice-0a1b2c3d" "bob" 1)
    as (_ & _ & Htalk & _).
  split; [|split].
  - apply Hname; [|reflexivity].
    intros c [<- | [<- | []]]; discriminate.
  - destruct (Hempty Sample.bob_record eq_refl) as (_ & H & _).
    apply H. left. reflexivity.
  - destruct (Htalk Sample.bob_record eq_refl) as (_ & _ & H).
    destruct H as (older & entries & H1 & H2 & H3 & _); [discriminate | discriminate |].
    exists older, entries. split; [exact H1|]. split; [exact H2 | exact H3].
Defined.

(** ** The servers at work on the sample data *)

Example discover_sample :
  Agents.agentDiscover Sample.tmp Sample.t0 {| Agents.include_stale := true |}
  = inl ("Active agents (4):" ++ nl
         ++ "- alice (alice-0a1b2c3d): active | pane: main:1.0" ++ nl
         ++ "- bob (bob-11223344): active | pane: main:1.1" ++ nl
         ++ "- carol (carol-55667788): active | pane: unknown" ++ nl
         ++ "- dave (dave-99aabbcc): stale | pane: main:3.0").
Proof. reflexivity. Qed.

Example discover_sample_fresh :
  map Agents.id (Agents.getActiveAgents Sample.tmp Sample.t0 false)
  = [JStr "alice-0a1b2c3d"; JStr "bob-11223344"; JStr "carol-55667788"].
Proof. reflexivity. Qed.

Example broadcast_alone :
  Agents.agentBroadcast (Some [Sample.alice; Sample.carol; Sample.dave]) Sample.t0
    Sample.snd_ok
    {| Agents.bc_agent_id := "alice-0a1b2c3d"; Agents.bc_message := "anyone?";
       Agents.bc_priority := Agents.Normal |}
  = (inl "No other agents to broadcast to", []).
Proof. reflexivity. Qed.

(** A broadcast of carol with mallory's file between those of alice and
    bob: alice and mallory get the message, then the conversion of
    mallory's name throws, and bob is not tried. *)
Example broadcast_stops_at_mallory :
  Agents.call_tool (Some [Sample.alice; Sample.mallory; Sample.bob]) Sample.t0
    Sample.random Sample.snd_ok "agent_broadcast"
    (JObj [("agent_id", JStr "carol-55667788"); ("message", JStr "hello")])
  = (IsError (Thrown (TypeError "Cannot convert object to primitive value")),
     [Agents.SndCall "main:1.0" "[carol] hello"; Agents.SndCall "main:4.0" "[carol] hello"],
     Some [Sample.alice; Sample.mallory; Sample.bob]).
Proof. reflexivity. Qed.

(** A presence file whose session is an object with a key [toString] is
    skipped: the pane cannot be built. *)
Example unbuildable_pane_skipped :
  Agents.getActiveAgents
    (Some [{| Agents.f_name := "claude_agent_eve.json";
              Agents.f_mtimeMs := Some Sample.t0;
              Agents.f_data :=
                Some (Sample.presence "eve-00000000" "eve"
                        [("tmux_session", JObj [("toString", JNull)]);
                         ("tmux_window", JStr "1"); ("tmux_pane", JStr "0")]) |}])
    Sample.t0 true
  = [].
Proof. reflexivity. Qed.

(** A direct message to mallory is delivered, and answered as a failure:
    the name of the target cannot be converted. *)
Example dm_to_mallory :
  Agents.agentDM (Some [Sample.mallory]) Sample.t0 Sample.snd_ok
    {| Agents.dm_agent_id := "alice-0a1b2c3d"; Agents.dm_to := "mallory-5ca1ab1e";
       Agents.dm_message := "ping" |}
  = ("Failed to send DM: TypeError: Cannot convert object to primitive value",
     [Agents.SndCall "main:4.0" "[DM from alice] ping"]).
Proof. reflexivity. Qed.

(** Numbers are printed as JavaScript prints them: an integer up to
    2^53 as it is, a larger one with the digits that tell its double
    from the next, and with an exponent from 10^21 on. *)
Example numbers_printed :
  map number_to_string
    [0; -5; 1700000000000; 2 ^ 53 + 1; 2 ^ 60; 10 ^ 21; 10 ^ 23;
     123456789012345678901234567890; 2 ^ 1024]
  = ["0"; "-5"; "1700000000000"; "9007199254740992"; "1152921504606847000"; "1e+21";
     "1e+23"; "1.2345678901234568e+29"; "Infinity"].
Proof. vm_compute. reflexivity. Qed.

(** What [trim] removes is the white space of JavaScript, not of ASCII
    alone: a no-break space (C2 A0) and a byte order mark (EF BB BF) on
    either side go, the letters stay. *)
Example trim_unicode :
  trim (String (ascii_of_nat 194) (String (ascii_of_nat 160)
          ("ok " ++ String (ascii_of_nat 239) (String (ascii_of_nat 187)
                      (String (ascii_of_nat 191) (String (ascii_of_nat 10) ""))))))
  = "ok".
Proof. reflexivity. Qed.

Example dm_to_carol :
  Agents.agentDM Sample.tmp Sample.t0 Sample.snd_ok
    {| Agents.dm_agent_id := "alice-0a1b2c3d"; Agents.dm_to := "carol-55667788";
       Agents.dm_message := "ping" |}
  = ("Agent carol-55667788 has no tmux pane", []).
Proof. reflexivity. Qed.

Example check_one_dm :
  Nats.agentCheckMessages Sample.url Sample.one_dm Sample.check_200
  = {| Nats.settled_at := 200; Nats.outcome := inl ("[DMs]" ++ nl ++ "ping") |}.
Proof. reflexivity. Qed.

Example check_argv :
  Nats.subscribe_argv Sample.url (fst (Nats.check_subscriptions Sample.check_200))
  = ["-s"; "nats://localhost:4222"; "subscribe"; "agents.dm.bob-11223344";
     "--count"; "10"].
Proof. reflexivity. Qed.

Example history_of_talk :
  Ledger.dm_history Ledger.SurfaceAmbiguity [Sample.alice_record; Sample.bob_record]
    Sample.talk "alice-0a1b2c3d" "bob" 50
  = Ledger.History
      [{| Ledger.cursor := 1; Ledger.from := "alice-0a1b2c3d";
          Ledger.to := Some "bob-11223344"; Ledger.channel := None;
          Ledger.content := "hi"; Ledger.timestamp := Sample.t0 |};
       {| Ledger.cursor := 3; Ledger.from := "bob-11223344";
          Ledger.to := Some "alice-0a1b2c3d"; Ledger.channel := None;
          Ledger.content := "yo"; Ledger.timestamp := Sample.t0 + 2 |}].
Proof. reflexivity. Qed.

(** * Further properties of the two servers *)

(** ** Identifiers *)

Section Identifiers.

Import Agents Reading.

Lemma hex_of_byte_shape (b : byte) :
  exists hi lo,
    hex_of_byte b = String hi (String lo "")
    /\ is_lower_hex hi = true /\ is_lower_hex lo = true.
Proof.
  destruct b; do 2 eexists; (split; [reflexivity | split; reflexivity]).
Qed.

Lemma unhex_hex_of_byte (b : byte) : unhex_byte (hex_of_byte b) = Some b.
Proof.
  destruct b; reflexivity.
Qed.

Lemma hex_of_byte_inj (b b' : byte) : hex_of_byte b = hex_of_byte b' -> b = b'.
Proof.
  intro H. apply (f_equal unhex_byte) in H.
  rewrite !unhex_hex_of_byte in H. now injection H.
Qed.

Lemma length_append (s s' : string) :
  String.length (s ++ s') = (String.length s + String.length s')%nat.
Proof.
  induction s as [|a s IH]; simpl; [reflexivity | now rewrite IH].
Qed.

Lemma hex_four (a b c d : byte) :
  hex [a; b; c; d] = hex_of_byte a ++ hex_of_byte b ++ hex_of_byte c ++ hex_of_byte d.
Proof.
  reflexivity.
Qed.

(** X1.  An id is the name, a hyphen and eight digits of lower-case
    hexadecimal, whatever the name and the random bytes. *)
Theorem generateAgentId_format (random : entropy) (agent_name : string) :
  exists suffix,
    generateAgentId random agent_name = agent_name ++ "-" ++ suffix
    /\ String.length suffix = 8%nat
    /\ all_chars is_lower_hex suffix = true
    /\ String.length (generateAgentId random agent_name)
       = (String.length agent_name + 9)%nat
    /\ Nats.generateAgentId random agent_name = generateAgentId random agent_name.
Proof.
  destruct random as [[[a b] c] d].
  destruct (hex_of_byte_shape a) as (a1 & a2 & Ea & Ha1 & Ha2).
  destruct (hex_of_byte_shape b) as (b1 & b2 & Eb & Hb1 & Hb2).
  destruct (hex_of_byte_shape c) as (c1 & c2 & Ec & Hc1 & Hc2).
  destruct (hex_of_byte_shape d) as (d1 & d2 & Ed & Hd1 & Hd2).
  exists (hex [a; b; c; d]).
  assert (Hhex : hex [a; b; c; d]
                 = String a1 (String a2 (String b1 (String b2
                     (String c1 (String c2 (String d1 (String d2 "")))))))).
  { rewrite hex_four, Ea, Eb, Ec, Ed. reflexivity. }
  split; [reflexivity|]. split; [now rewrite Hhex|]. split; [|split].
  - rewrite Hhex. unfold all_chars. simpl.
    now rewrite Ha1, Ha2, Hb1, Hb2, Hc1, Hc2, Hd1, Hd2.
  - unfold generateAgentId. simpl bytes_of. rewrite !length_append, Hhex. simpl. lia.
  - reflexivity.
Qed.

(** X2.  For one name, two ids are the same only when the random bytes
    are the same: the suffix spells the four bytes. *)
Theorem generateAgentId_injective (random random' : entropy) (agent_name : string) :
  generateAgentId random agent_name = generateAgentId random' agent_name <->
  random = random'.
Proof.
  split; [|intros ->; reflexivity].
  unfold generateAgentId. intro H.
  apply append_cancel_l in H. apply (append_cancel_l "-") in H.
  destruct random as [[[a b] c] d], random' as [[[a' b'] c'] d'].
  destruct (hex_of_byte_shape a) as (a1 & a2 & Ea & _).
  destruct (hex_of_byte_shape b) as (b1 & b2 & Eb & _).
  destruct (hex_of_byte_shape c) as (c1 & c2 & Ec & _).
  destruct (hex_of_byte_shape d) as (d1 & d2 & Ed & _).
  destruct (hex_of_byte_shape a') as (a1' & a2' & Ea' & _).
  destruct (hex_of_byte_shape b') as (b1' & b2' & Eb' & _).
  destruct (hex_of_byte_shape c') as (c1' & c2' & Ec' & _).
  destruct (hex_of_byte_shape d') as (d1' & d2' & Ed' & _).
  simpl bytes_of in H. rewrite !hex_four in H.
  rewrite Ea, Eb, Ec, Ed, Ea', Eb', Ec', Ed' in H. simpl in H.
  injection H as -> -> -> -> -> -> -> ->.
  rewrite <- Ea' in Ea. rewrite <- Eb' in Eb. rewrite <- Ec' in Ec. rewrite <- Ed' in Ed.
  apply hex_of_byte_inj in Ea, Eb, Ec, Ed. now subst.
Qed.

End Identifiers.

(** ** The agent directory, further *)

Section DirectoryFurther.

Import Agents Reading.

Lemma agent_of_file_fresh_of_all (now : Z) (f : file) :
  agent_of_file now false f
  = match agent_of_file now true f with
    | Some a => if is_stale a then None else Some a
    | None => None
    end.
Proof.
  unfold agent_of_file.
  destruct (f_mtimeMs f) as [m|]; [|reflexivity].
  destruct (f_data f) as [data|]; [|reflexivity].
  simpl negb. simpl andb.
  destruct (prop data "agent_id"); destruct (prop data "agent_name");
    destruct (prop data "tmux_session"); destruct (prop data "tmux_window");
    destruct (prop data "tmux_pane") as [t_p|];
    destruct (staleThreshold <? now - m); try reflexivity;
    destruct (pane_of _ _ t_p); reflexivity.
Qed.

Lemma collect_agents_fresh_of_all (now : Z) (files : list file) :
  collect_agents now false files
  = filter (fun a => negb (is_stale a)) (collect_agents now true files).
Proof.
  induction files as [|f files IH]; [reflexivity|]. simpl.
  rewrite agent_of_file_fresh_of_all.
  destruct (agent_of_file now true f) as [a|]; [|exact IH].
  simpl. destruct (is_stale a); simpl; now rewrite IH.
Qed.

(** X3.  What is listed without the stale agents is what is listed
    with them, less the records marked stale, in the same order; so
    the second list is never the shorter. *)
Theorem fresh_agents_of_all (dir : directory) (now : Z) :
  getActiveAgents dir now false
  = filter (fun a => negb (is_stale a)) (getActiveAgents dir now true)
  /\ (List.length (getActiveAgents dir now false)
      <= List.length (getActiveAgents dir now true))%nat.
Proof.
  assert (H : getActiveAgents dir now false
              = filter (fun a => negb (is_stale a)) (getActiveAgents dir now true)).
  { destruct dir as [entries|]; [|reflexivity]. apply collect_agents_fresh_of_all. }
  split; [exact H|]. rewrite H. apply filter_length_le.
Qed.

(** X4.  As long as the directory stays as it is, ageing only removes:
    a record listed as active at some time is listed, the same, at
    every earlier time. *)
Theorem active_before (dir : directory) (earlier now : Z) (a : AgentInfo)
        (Horder : earlier <= now)
        (Hactive : In a (getActiveAgents dir now false)) :
  In a (getActiveAgents dir earlier false).
Proof.
  destruct dir as [entries|]; [|destruct Hactive].
  apply In_getActiveAgents in Hactive. destruct Hactive as (f & Hin & Hname & E).
  apply In_getActiveAgents. exists f. split; [exact Hin|]. split; [exact Hname|].
  apply agent_of_file_Some in E.
  destruct E as (m & data & a_id & a_name & t_s & t_w & t_p & pane
                 & Hm & Hd & E1 & E2 & E3 & E4 & E5 & E6 & Hage & ->).
  destruct Hage as [Habs | Hage]; [discriminate|].
  unfold agent_of_file. rewrite Hm, Hd, E1, E2, E3, E4, E5, E6.
  replace (staleThreshold <? earlier - m) with false by (symmetry; apply Z.ltb_ge; lia).
  replace (staleThreshold <? now - m) with false by (symmetry; apply Z.ltb_ge; lia).
  reflexivity.
Qed.

Lemma active_before_witness :
  In {| id := JStr "bob-11223344"; name := JStr "bob"; tmux_pane := "main:1.1";
        is_stale := false |}
     (getActiveAgents Sample.tmp (Sample.t0 - 1000) false).
Proof.
  apply (active_before Sample.tmp (Sample.t0 - 1000) Sample.t0).
  - lia.
  - simpl. tauto.
Defined.

Lemma collect_agents_app (now : Z) (includeStale : bool) (l1 l2 : list file) :
  collect_agents now includeStale (l1 ++ l2)%list
  = (collect_agents now includeStale l1 ++ collect_agents now includeStale l2)%list.
Proof.
  induction l1 as [|f l1 IH]; [reflexivity|]. simpl.
  destruct (agent_of_file now includeStale f); simpl; now rewrite IH.
Qed.

(** X5.  An entry of the directory that is no agent file, or cannot be
    stat'ed, or cannot be read or parsed, or holds [null], changes
    nothing: the agents listed are those listed without it. *)
Theorem unreadable_file_skipped (before_f after_f : list file) (f : file)
        (now : Z) (includeStale : bool)
        (Hbad : is_agent_file (f_name f) = false \/ f_mtimeMs f = None
                \/ f_data f = None \/ f_data f = Some JNull) :
  getActiveAgents (Some (before_f ++ f :: after_f)%list) now includeStale
  = getActiveAgents (Some (before_f ++ after_f)%list) now includeStale.
Proof.
  unfold getActiveAgents. rewrite !filter_app, !collect_agents_app. f_equal.
  simpl. destruct (is_agent_file (f_name f)) eqn:Hname; [|reflexivity].
  simpl.
  assert (Hnone : agent_of_file now includeStale f = None).
  { unfold agent_of_file.
    destruct Hbad as [H | [H | [H | H]]]; try congruence.
    - now rewrite H.
    - rewrite H. now destruct (f_mtimeMs f).
    - rewrite H. destruct (f_mtimeMs f); [|reflexivity].
      now destruct (negb includeStale && (staleThreshold <? now - z)). }
  now rewrite Hnone.
Qed.

Lemma unreadable_file_skipped_witness :
  getActiveAgents Sample.tmp Sample.t0 true
  = getActiveAgents (Some [Sample.alice; Sample.bob; Sample.carol; Sample.dave])
      Sample.t0 true.
Proof.
  apply (unreadable_file_skipped [Sample.alice; Sample.bob; Sample.carol; Sample.dave]
           [] Sample.notes Sample.t0 true).
  left. reflexivity.
Defined.

End DirectoryFurther.

(** ** Names of agent files and panes *)

Section NamesAndPanes.

Import Agents Reading.

Lemma prefix_app (p s : string) :
  String.prefix p s = true <-> exists r, s = p ++ r.
Proof.
  revert s. induction p as [|a p IH]; intros [|b s]; simpl.
  - split; [intros _; now exists "" | reflexivity].
  - split; [intros _; eexists; reflexivity | reflexivity].
  - split; [discriminate | intros (r & H); discriminate].
  - destruct (ascii_dec a b) as [->|Hab].
    + rewrite IH. split; intros (r & H); exists r; [now subst | now injection H].
    + split; [discriminate | intros (r & H); injection H as H _; congruence].
Qed.

Lemma substring_whole (s : string) : substring 0 (String.length s) s = s.
Proof.
  induction s as [|a s IH]; simpl; [reflexivity | now rewrite IH].
Qed.

Lemma substring_skip (q p : string) (m : nat) :
  substring (String.length q) m (q ++ p) = substring 0 m p.
Proof.
  induction q as [|a q IH]; simpl; [reflexivity | exact IH].
Qed.

Lemma substring_split (n : nat) (s : string) :
  (n <= String.length s)%nat ->
  s = substring 0 n s ++ substring n (String.length s - n) s.
Proof.
  revert s. induction n as [|n IH]; intros s H; simpl.
  - rewrite Nat.sub_0_r. destruct s; simpl; [reflexivity|].
    now rewrite substring_whole.
  - destruct s as [|a s]; simpl in *; [lia|].
    f_equal. apply IH. lia.
Qed.

Lemma endsWith_app (s p : string) :
  endsWith s p = true <-> exists q, s = q ++ p.
Proof.
  unfold endsWith. rewrite andb_true_iff, Nat.leb_le, String.eqb_eq. split.
  - intros [Hlen Hsub]. exists (substring 0 (String.length s - String.length p) s).
    assert (Hn : (String.length s - String.length p <= String.length s)%nat) by lia.
    pose proof (substring_split _ s Hn) as H.
    replace (String.length s - (String.length s - String.length p))%nat
      with (String.length p) in H by lia.
    now rewrite Hsub in H.
  - intros (q & ->). rewrite length_append. split; [lia|].
    replace (String.length q + String.length p - String.length p)%nat
      with (String.length q) by lia.
    rewrite substring_skip. apply substring_whole.
Qed.

(** X6.  The files that count as agent files are those named
    [claude_agent_], anything, [.json]: the shortest such name is
    [claude_agent_.json]. *)
Theorem is_agent_file_iff (f : string) :
  is_agent_file f = true <-> exists middle, f = "claude_agent_" ++ middle ++ ".json".
Proof.
  unfold is_agent_file, startsWith. rewrite andb_true_iff, prefix_app, endsWith_app.
  split.
  - intros [(r & ->) (q & H)].
    simpl in H.
    do 13 (destruct q as [|? q]; simpl in H; [discriminate H | injection H as _ H]).
    exists q. now rewrite H.
  - intros (middle & ->). split.
    + now exists (middle ++ ".json").
    + exists ("claude_agent_" ++ middle). simpl. reflexivity.
Qed.

Lemma pane_of_empty (t_s t_w t_p : value) :
  pane_of t_s t_w t_p = Some "" <-> truthy t_s && truthy t_w && truthy t_p = false.
Proof.
  unfold pane_of. destruct (truthy t_s && truthy t_w && truthy t_p).
  - split; [|discriminate].
    destruct (to_string_value t_s) as [s|]; [|discriminate].
    destruct (to_string_value t_w); [|discriminate].
    destruct (to_string_value t_p); [|discriminate].
    destruct s; simpl; discriminate.
  - tauto.
Qed.

(** X7.  The pane of a record is made of the session, the window and
    the pane of its file when the three are truthy, and is empty as
    soon as one of them is left out, empty, [null], [false] or the
    number 0; for three strings that are not empty it is
    [session:window.pane]. *)
Theorem pane_needs_all_three (now : Z) (includeStale : bool) (f : file)
        (fields : list (string * json)) (a : AgentInfo)
        (Hdata : f_data f = Some (JObj fields))
        (Hrec : agent_of_file now includeStale f = Some a) :
  (tmux_pane a = "" <->
   truthy (lookup "tmux_session" fields) && truthy (lookup "tmux_window" fields)
   && truthy (lookup "tmux_pane" fields) = false)
  /\ (forall session window pane,
         lookup "tmux_session" fields = Some (JStr session) ->
         lookup "tmux_window" fields = Some (JStr window) ->
         lookup "tmux_pane" fields = Some (JStr pane) ->
         session <> "" -> window <> "" -> pane <> "" ->
         tmux_pane a = session ++ ":" ++ window ++ "." ++ pane)
  /\ (lookup "tmux_session" fields = Some (JNum 0)
      \/ lookup "tmux_window" fields = Some (JNum 0)
      \/ lookup "tmux_pane" fields = Some (JNum 0) -> tmux_pane a = "").
Proof.
  apply agent_of_file_Some in Hrec.
  destruct Hrec as (m & data & a_id & a_name & t_s & t_w & t_p & built
                    & _ & Hd & _ & _ & E3 & E4 & E5 & E6 & _ & ->).
  rewrite Hdata in Hd. injection Hd as <-. simpl in E3, E4, E5.
  injection E3 as <-. injection E4 as <-. injection E5 as <-.
  simpl tmux_pane. split; [|split].
  - rewrite <- pane_of_empty, E6. split; [now intros -> | now intros [= ->]].
  - intros session window pane Es Ew Ep Hs Hw Hp.
    rewrite Es, Ew, Ep in E6. unfold pane_of in E6. simpl in E6.
    apply String.eqb_neq in Hs, Hw, Hp. rewrite Hs, Hw, Hp in E6. simpl in E6.
    now injection E6 as <-.
  - intro H.
    assert (E : pane_of (lookup "tmux_session" fields) (lookup "tmux_window" fields)
                        (lookup "tmux_pane" fields) = Some "").
    { apply pane_of_empty.
      destruct H as [-> | [-> | ->]]; simpl; rewrite ?andb_false_r; reflexivity. }
    rewrite E in E6. now injection E6 as <-.
Qed.

Lemma pane_needs_all_three_witness :
  exists a,
    agent_of_file Sample.t0 false
      {| f_name := "claude_agent_zed.json"; f_mtimeMs := Some Sample.t0;
         f_data := Some (JObj [("agent_id", JStr "zed-00000000");
                               ("tmux_session", JStr "main");
                               ("tmux_window", JNum 0); ("tmux_pane", JNum 1)]) |}
    = Some a
    /\ tmux_pane a = "".
Proof.
  eexists. split; [reflexivity|].
  apply (pane_needs_all_three Sample.t0 false
           {| f_name := "claude_agent_zed.json"; f_mtimeMs := Some Sample.t0;
              f_data := Some (JObj [("agent_id", JStr "zed-00000000");
                                    ("tmux_session", JStr "main");
                                    ("tmux_window", JNum 0); ("tmux_pane", JNum 1)]) |}
           _ _ eq_refl eq_refl).
  right. left. reflexivity.
Defined.

End NamesAndPanes.

(** ** Direct messages, broadcasts and the handler of the file-based server *)

Section AgentsFurther.

Import Agents Outcome Reading.

(** X8.  A direct message to an agent that is found and has a pane
    makes one call of the helper, to that pane, with the message behind
    the sender's name.  When the name of the agent can be converted to
    a string, the answer names the agent when the helper exits with
    code 0 and only then; when it cannot, the answer after an exit with
    code 0 is the failure of the conversion.  After any other end of
    the helper the answer says that the sending failed and why. *)
Theorem dm_delivery (dir : directory) (now : Z) (snd_proc : snd_helper)
        (args : AgentDMArgs) (target : AgentInfo)
        (Hfound : find (fun a => strict_eq_string (id a) (dm_to args))
                       (getActiveAgents dir now false) = Some target)
        (Hpane : tmux_pane target <> "") :
  let call := SndCall (tmux_pane target)
                      ("[DM from " ++ senderName_of (dm_agent_id args) ++ "] "
                       ++ dm_message args) in
  id target = JStr (dm_to args)
  /\ snd (agentDM dir now snd_proc args) = [call]
  /\ (forall target_name, to_string (name target) = Some target_name ->
        (fst (agentDM dir now snd_proc args) = "DM sent to " ++ target_name
         <-> snd_proc [] call = Closed (Some 0)))
  /\ (to_string (name target) = None -> snd_proc [] call = Closed (Some 0) ->
        fst (agentDM dir now snd_proc args)
        = "Failed to send DM: TypeError: Cannot convert object to primitive value")
  /\ (forall code, snd_proc [] call = Closed code -> code <> Some 0 ->
        fst (agentDM dir now snd_proc args)
        = "Failed to send DM: Error: snd failed with code " ++ code_to_string code)
  /\ (forall err, snd_proc [] call = SpawnError err ->
        fst (agentDM dir now snd_proc args)
        = "Failed to send DM: " ++ error_to_string err).
Proof.
  intro call.
  assert (Hid : id target = JStr (dm_to args)).
  { apply find_some in Hfound. now apply strict_eq_string_true. }
  apply String.eqb_neq in Hpane.
  unfold agentDM. rewrite Hfound, Hpane. unfold runSnd. fold call.
  split; [exact Hid|].
  destruct (snd_proc [] call) as [[[|c|c]|]|err] eqn:E; simpl.
  - split; [now destruct (to_string (name target))|].
    split; [intros n ->; split; reflexivity|].
    split; [intros -> _; reflexivity|]. split.
    + intros code Hc Hne. injection Hc as <-. now destruct Hne.
    + intros err He. discriminate.
  - split; [reflexivity|]. split; [intros n _; split; discriminate|].
    split; [intros _ H; discriminate|]. split.
    + intros code Hc Hne. injection Hc as <-. reflexivity.
    + intros err He. discriminate.
  - split; [reflexivity|]. split; [intros n _; split; discriminate|].
    split; [intros _ H; discriminate|]. split.
    + intros code Hc Hne. injection Hc as <-. reflexivity.
    + intros err He. discriminate.
  - split; [reflexivity|]. split; [intros n _; split; discriminate|].
    split; [intros _ H; discriminate|]. split.
    + intros code Hc Hne. injection Hc as <-. reflexivity.
    + intros err He. discriminate.
  - split; [reflexivity|]. split; [intros n _; split; discriminate|].
    split; [intros _ H; discriminate|]. split.
    + intros code Hc. discriminate.
    + intros e He. injection He as <-. reflexivity.
Qed.

Lemma dm_delivery_witness :
  snd (agentDM Sample.tmp Sample.t0 Sample.snd_bob_down
         {| dm_agent_id := "alice-0a1b2c3d"; dm_to := "bob-11223344";
            dm_message := "ping" |})
  = [SndCall "main:1.1" "[DM from alice] ping"]
  /\ fst (agentDM Sample.tmp Sample.t0 Sample.snd_bob_down
            {| dm_agent_id := "alice-0a1b2c3d"; dm_to := "bob-11223344";
               dm_message := "ping" |})
     = "Failed to send DM: Error: snd failed with code 1".
Proof.
  destruct (dm_delivery Sample.tmp Sample.t0 Sample.snd_bob_down
              {| dm_agent_id := "alice-0a1b2c3d"; dm_to := "bob-11223344";
                 dm_message := "ping" |}
              {| id := JStr "bob-11223344"; name := JStr "bob"; tmux_pane := "main:1.1";
                 is_stale := false |} eq_refl)
    as (_ & Hcalls & _ & _ & Hfail & _).
  - discriminate.
  - split; [exact Hcalls|]. apply (Hfail (Some 1)); [reflexivity | discriminate].
Defined.

(** A message that [spawn] refuses, as it does for a NUL character: the
    answer shows the error as Node prints it, with its code. *)
Example dm_spawn_refused :
  fst (agentDM Sample.tmp Sample.t0
         (fun _ _ =>
            SpawnError
              (NodeError "TypeError" "ERR_INVALID_ARG_VALUE"
                 "The argument 'args[2]' must be a string without null bytes."))
         {| dm_agent_id := "alice-0a1b2c3d"; dm_to := "bob-11223344";
            dm_message := "ping" |})
  = "Failed to send DM: TypeError [ERR_INVALID_ARG_VALUE]: "
    ++ "The argument 'args[2]' must be a string without null bytes.".
Proof. reflexivity. Qed.

(** X9.  A direct message to an agent whose every file is older than
    five minutes is answered with not found, and nothing is sent,
    even when discovery with the stale agents lists it. *)
Theorem dm_to_stale_agent (entries : list file) (now : Z) (snd_proc : snd_helper)
        (args : AgentDMArgs)
        (Hstale : forall f m a,
            In f entries -> f_mtimeMs f = Some m ->
            agent_of_file now true f = Some a -> id a = JStr (dm_to args) ->
            staleThreshold < now - m) :
  agentDM (Some entries) now snd_proc args = ("Agent " ++ dm_to args ++ " not found", []).
Proof.
  apply agentDM_not_found. intros a Ha Hid.
  apply In_getActiveAgents in Ha. destruct Ha as (f & Hin & _ & E).
  destruct (agent_of_file_fresh now f a E) as (_ & m & Hm & Hage).
  apply agent_of_file_include in E.
  specialize (Hstale f m a Hin Hm E Hid). lia.
Qed.

Lemma dm_to_stale_agent_witness :
  agentDM Sample.tmp Sample.t0 Sample.snd_ok
    {| dm_agent_id := "alice-0a1b2c3d"; dm_to := "dave-99aabbcc"; dm_message := "ping" |}
  = ("Agent dave-99aabbcc not found", [])
  /\ In (JStr "dave-99aabbcc") (map id (getActiveAgents Sample.tmp Sample.t0 true)).
Proof.
  split.
  - apply (dm_to_stale_agent
             [Sample.alice; Sample.bob; Sample.carol; Sample.dave; Sample.notes]
             Sample.t0 Sample.snd_ok
             {| dm_agent_id := "alice-0a1b2c3d"; dm_to := "dave-99aabbcc";
                dm_message := "ping" |}).
    intros f m a Hin Hm Ha Hid.
    destruct Hin as [<- | [<- | [<- | [<- | [<- | []]]]]];
      vm_compute in Ha; try discriminate Ha;
      injection Ha as <-; try discriminate Hid.
    injection Hm as <-. unfold staleThreshold, Sample.t0. lia.
  - simpl. tauto.
Defined.

Lemma filter_partition_length {A : Type} (test : A -> bool) (l : list A) :
  (List.length (filter test l) + List.length (filter (fun x => negb (test x)) l)
   = List.length l)%nat.
Proof.
  induction l as [|x l IH]; [reflexivity|]. simpl.
  destruct (test x); simpl; lia.
Qed.

Lemma forallb_false {A : Type} (test : A -> bool) (l : list A) :
  forallb test l = false <-> exists x, In x l /\ test x = false.
Proof.
  induction l as [|y l IH]; simpl.
  - split; [discriminate | intros (x & [] & _)].
  - rewrite andb_false_iff, IH. split.
    + intros [H | (x & Hin & H)]; eauto.
    + intros (x & [<- | Hin] & H); eauto.
Qed.

(** What a broadcast answers tells whether every name could be
    converted. *)
Lemma agentBroadcast_answer (dir : directory) (now : Z) (snd_proc : snd_helper)
      (args : AgentBroadcastArgs) :
  let targets := filter (is_target (bc_agent_id args)) (getActiveAgents dir now false) in
  (forall text, fst (agentBroadcast dir now snd_proc args) = inl text ->
                forallb printable_name targets = true)
  /\ (forall err, fst (agentBroadcast dir now snd_proc args) = inr err ->
                  forallb printable_name targets = false /\ err = unprintable).
Proof.
  intro targets.
  destruct (agentBroadcast_spec snd_proc dir now args) as (Hnil & Hall & Habort & _).
  fold targets in Hnil, Hall, Habort.
  destruct (forallb printable_name targets) eqn:Hp.
  - split; [reflexivity|]. intros err H.
    destruct targets as [|t ts] eqn:E.
    + rewrite Hnil in H by reflexivity. discriminate H.
    + destruct Hall as (lines & Heq & _); [discriminate | reflexivity |].
      rewrite Heq in H. discriminate H.
  - rewrite Habort by reflexivity. split.
    + intros text H. discriminate H.
    + intros err H. injection H as <-. auto.
Qed.

(** X10.  Every call of the helper that a broadcast makes carries the
    same text, the message behind the sender's name, and goes to the
    pane of a listed agent that has not the sender's id.  When the
    broadcast answers with a text, there is one call for each listed
    agent, less those that have the sender's id and those that have no
    pane, and every other agent with a pane gets one.  It ends with an
    error exactly when the name of one of these agents cannot be
    converted to a string; it has then made a call at least, and no
    more than there are such agents. *)
Theorem broadcast_attempts (dir : directory) (now : Z) (snd_proc : snd_helper)
        (args : AgentBroadcastArgs) :
  let agents := getActiveAgents dir now false in
  let left_out :=
    filter (fun a => strict_eq_string (id a) (bc_agent_id args)
                     || (tmux_pane a =? "")%string) agents in
  let calls := snd (agentBroadcast dir now snd_proc args) in
  (forall c, In c calls ->
     call_message c
     = "[" ++ senderName_of (bc_agent_id args) ++ "] " ++ bc_message args
     /\ exists a, In a agents /\ tmux_pane a = call_pane c
                  /\ id a <> JStr (bc_agent_id args))
  /\ (List.length calls + List.length left_out <= List.length agents)%nat
  /\ (forall text, fst (agentBroadcast dir now snd_proc args) = inl text ->
        (List.length calls + List.length left_out = List.length agents)%nat
        /\ forall a, In a agents -> id a <> JStr (bc_agent_id args) ->
                     tmux_pane a <> "" -> In (tmux_pane a) (map call_pane calls))
  /\ ((exists err, fst (agentBroadcast dir now snd_proc args) = inr err)
      <-> exists a, In a agents /\ id a <> JStr (bc_agent_id args)
                    /\ tmux_pane a <> "" /\ to_string (name a) = None)
  /\ (forall err, fst (agentBroadcast dir now snd_proc args) = inr err ->
        err = TypeError "Cannot convert object to primitive value" /\ calls <> []).
Proof.
  intros agents left_out calls.
  assert (Hcalls := agentBroadcast_calls snd_proc dir now args).
  destruct (agentBroadcast_answer dir now snd_proc args) as (Htext & Herr).
  destruct (agentBroadcast_spec snd_proc dir now args) as (_ & _ & Habort & _).
  fold agents in Hcalls, Htext, Herr, Habort. fold calls in Hcalls.
  set (targets := filter (is_target (bc_agent_id args)) agents) in *.
  assert (Hpart : (List.length targets + List.length left_out = List.length agents)%nat).
  { unfold targets, left_out.
    pose proof (filter_partition_length
                  (fun a => strict_eq_string (id a) (bc_agent_id args)
                            || (tmux_pane a =? "")%string) agents) as Hp.
    rewrite (filter_ext (is_target (bc_agent_id args))
               (fun a => negb (strict_eq_string (id a) (bc_agent_id args)
                               || (tmux_pane a =? "")%string))).
    - lia.
    - intro a. unfold is_target. now rewrite negb_orb. }
  destruct (reached_prefix targets) as (rest & Hrest).
  split; [|split; [|split; [|split]]].
  - intros c Hc. rewrite Hcalls in Hc. apply in_map_iff in Hc.
    destruct Hc as (a & <- & Ha).
    assert (Hin : In a targets) by (rewrite Hrest; apply in_or_app; now left).
    apply filter_In in Hin. destruct Hin as [Hin Ht].
    apply is_target_spec in Ht. split; [reflexivity|]. exists a. tauto.
  - rewrite Hcalls, length_map.
    apply (f_equal (@List.length _)) in Hrest. rewrite length_app in Hrest. lia.
  - intros text H. apply Htext in H. apply reached_all in H. split.
    + rewrite Hcalls, length_map, H. exact Hpart.
    + intros a Hin Hid Hp. rewrite Hcalls, map_map, H. simpl.
      apply in_map_iff. exists a. split; [reflexivity|].
      apply filter_In. split; [exact Hin|]. now apply is_target_spec.
  - split.
    + intros (err & H). apply Herr in H. destruct H as [H _].
      apply forallb_false in H. destruct H as (a & Hin & Ha).
      apply filter_In in Hin. destruct Hin as [Hin Ht]. apply is_target_spec in Ht.
      apply converts_None in Ha. exists a. tauto.
    + intros (a & Hin & Hid & Hp & Hn). exists unprintable. apply Habort.
      apply forallb_false. exists a. split.
      * apply filter_In. split; [exact Hin|]. now apply is_target_spec.
      * now apply converts_None.
  - intros err H. apply Herr in H. destruct H as [H ->]. split; [reflexivity|].
    destruct (reached_stops targets H) as (before & t & after & _ & _ & _ & Hr).
    rewrite Hcalls, Hr, map_app. simpl. intro E.
    apply (f_equal (@List.length _)) in E. rewrite length_app in E. simpl in E. lia.
Qed.

End AgentsFurther.

(** ** The handler and the schemas of the file-based server *)

Section AgentsHandler.

Import Agents Outcome Reading.

Ltac tool_is E :=
  apply String.eqb_eq in E; subst.

Ltac not_a_tool H :=
  exfalso; apply H; simpl; tauto.

Lemma agentBroadcast_throws (dir : directory) (now : Z) (snd_proc : snd_helper)
      (a : AgentBroadcastArgs) (err : error) (log : list snd_call) :
  agentBroadcast dir now snd_proc a = (inr err, log) ->
  err = unprintable /\ log <> [].
Proof.
  intro H.
  destruct (agentBroadcast_answer dir now snd_proc a) as (_ & Herr).
  destruct (Herr err) as [Hp ->]; [now rewrite H|]. split; [reflexivity|].
  pose proof (agentBroadcast_calls snd_proc dir now a) as Hcalls.
  rewrite H in Hcalls. simpl in Hcalls.
  destruct (reached_stops _ Hp) as (before & t & after & _ & _ & _ & Hr).
  rewrite Hcalls, Hr, map_app. simpl. intro E.
  apply (f_equal (@List.length _)) in E. rewrite length_app in E. simpl in E. lia.
Qed.

Lemma agentDiscover_throws (dir : directory) (now : Z) (a : AgentDiscoverArgs)
      (err : error) :
  agentDiscover dir now a = inr err -> err = unprintable.
Proof.
  unfold agentDiscover.
  destruct (List.length _ =? 0)%nat; [discriminate|].
  destruct (discover_lines _); [discriminate|].
  intro H. now injection H as <-.
Qed.

(** X11.  The handler answers every request.  An unknown tool is an
    error that names it, and a request that the schema refuses is an
    error too; neither comes with a call of the helper.  A known tool
    throws in two cases only, both the conversion of a name or an id
    that cannot be converted: a broadcast, after a call at least, and a
    discovery; registering, deregistering and a direct message never
    throw, a delivery that fails being reported in the text of an
    ordinary response.  Only a broadcast and a direct message call the
    helper. *)
Theorem agents_handler (dir : directory) (now : Z) (random : entropy)
        (snd_proc : snd_helper) (tool : string) (args : json) :
  let out := call_tool dir now random snd_proc tool args in
  let answer := fst (fst out) in
  let calls := snd (fst out) in
  (~ In tool agents_tools ->
   answer = IsError (Thrown (Error ("Unknown tool: " ++ tool))) /\ calls = [])
  /\ (answer = IsError ZodError -> calls = [])
  /\ (forall err, answer = IsError (Thrown err) -> In tool agents_tools ->
        err = TypeError "Cannot convert object to primitive value"
        /\ (tool = "agent_broadcast" /\ calls <> []
            \/ tool = "agent_discover" /\ calls = []))
  /\ (calls <> [] -> tool = "agent_broadcast" \/ tool = "agent_dm").
Proof.
  intros out answer calls. unfold answer, calls, out, call_tool.
  destruct (tool =? "agent_register")%string eqn:E1.
  { tool_is E1. destruct (AgentRegisterSchema args); simpl;
      repeat split; intros; try discriminate; try congruence; not_a_tool H. }
  destruct (tool =? "agent_deregister")%string eqn:E2.
  { tool_is E2. destruct (AgentDeregisterSchema args); simpl;
      repeat split; intros; try discriminate; try congruence; not_a_tool H. }
  destruct (tool =? "agent_broadcast")%string eqn:E3.
  { tool_is E3. destruct (AgentBroadcastSchema args) as [a|]; simpl.
    - destruct (agentBroadcast dir now snd_proc a) as [[r|e] log] eqn:Hb; simpl.
      + split; [intro H; not_a_tool H|]. split; [discriminate|].
        split; [discriminate | tauto].
      + apply agentBroadcast_throws in Hb. destruct Hb as [-> Hlog].
        split; [intro H; not_a_tool H|]. split; [discriminate|]. split; [|tauto].
        intros err H _. injection H as <-. split; [reflexivity | tauto].
    - split; [intro H; not_a_tool H|]. split; [reflexivity|].
      split; [discriminate | congruence]. }
  destruct (tool =? "agent_dm")%string eqn:E4.
  { tool_is E4. destruct (AgentDMSchema args) as [a|]; simpl;
      [destruct (agentDM dir now snd_proc a) as [r log]; simpl|];
      repeat split; intros; try discriminate; try congruence; try tauto; not_a_tool H. }
  destruct (tool =? "agent_discover")%string eqn:E5.
  { tool_is E5. destruct (AgentDiscoverSchema args) as [a|]; simpl.
    - destruct (agentDiscover dir now a) as [r|e] eqn:Hd; simpl.
      + split; [intro H; not_a_tool H|]. split; [discriminate|].
        split; [discriminate | congruence].
      + apply agentDiscover_throws in Hd. subst e.
        split; [intro H; not_a_tool H|]. split; [discriminate|]. split; [|congruence].
        intros err H _. injection H as <-. split; [reflexivity | tauto].
    - split; [intro H; not_a_tool H|]. split; [reflexivity|].
      split; [discriminate | congruence]. }
  simpl. split; [auto|]. split; [discriminate|]. split; [|congruence].
  intros err _ Hin. apply String.eqb_neq in E1, E2, E3, E4, E5.
  simpl in Hin. intuition congruence.
Qed.

(** X12.  A key that a schema does not declare changes nothing in what
    it returns, wherever the key stands in the request. *)
Theorem schemas_drop_other_keys (k : string) (v : json)
        (before after : list (string * json)) :
  let with_k := JObj (before ++ (k, v) :: after)%list in
  let without := JObj (before ++ after)%list in
  (~ In k ["name"; "description"] ->
   AgentRegisterSchema with_k = AgentRegisterSchema without)
  /\ (~ In k ["agent_id"] ->
      AgentDeregisterSchema with_k = AgentDeregisterSchema without)
  /\ (~ In k ["agent_id"; "message"; "priority"] ->
      AgentBroadcastSchema with_k = AgentBroadcastSchema without)
  /\ (~ In k ["agent_id"; "to"; "message"] ->
      AgentDMSchema with_k = AgentDMSchema without)
  /\ (~ In k ["include_stale"] ->
      AgentDiscoverSchema with_k = AgentDiscoverSchema without).
Proof.
  intros with_k without.
  unfold with_k, without, AgentRegisterSchema, AgentDeregisterSchema,
    AgentBroadcastSchema, AgentDMSchema, AgentDiscoverSchema, fields_of.
  repeat split; intro H; simpl in H;
    rewrite !lookup_other by (intro E; apply H; subst; tauto); reflexivity.
Qed.

End AgentsHandler.

(** ** The [nats] client: commands and publishing *)

Section NatsCommands.

Import Nats Reading.

Lemma str_or_nonempty (a b : string) : b <> "" -> str_or a b <> "".
Proof.
  intro Hb. unfold str_or. destruct (a =? "")%string eqn:E; [exact Hb|].
  now apply String.eqb_neq.
Qed.

Lemma trimStart_spaces (s : string) :
  all_chars is_space s = true -> trimStart s = "".
Proof.
  unfold all_chars. induction s as [|a s IH]; simpl; [reflexivity|].
  intro H. apply andb_true_iff in H. destruct H as [Ha Hs].
  rewrite Ha. now apply IH.
Qed.

Lemma trim_spaces (s : string) : all_chars is_space s = true -> trim s = "".
Proof.
  intro H. unfold trim. now rewrite (trimStart_spaces s H).
Qed.

(** X13.  A command of the client is one process, run with the server
    first among its arguments.  It succeeds exactly when the process
    exits with code 0, and then gives the output without the white
    space around it (that of JavaScript: a no-break space counts), or
    [OK] when nothing else is left; otherwise it fails with what the
    process wrote as errors, or with the exit code when it wrote
    none. *)
Theorem nats_command_outcome (url : string) (cli : nats_cli)
        (log : list (list string)) (args : list string) :
  let argv := ("-s" :: url :: args)%list in
  let run := cli log argv in
  let out := runNatsCommand url cli log args in
  snd out = (log ++ [argv])%list
  /\ ((exists text, fst out = inl text) <-> run_end run = Closed (Some 0))
  /\ (forall text, fst out = inl text ->
        text <> "" /\ (text = trim (run_stdout run)
                       \/ trim (run_stdout run) = "" /\ text = "OK"))
  /\ (all_chars is_space (run_stdout run) = true -> run_end run = Closed (Some 0) ->
      fst out = inl "OK")
  /\ (trim (run_stdout run) = "" -> run_end run = Closed (Some 0) ->
      fst out = inl "OK")
  /\ (forall code, run_end run = Closed code -> code <> Some 0 ->
        fst out
        = inr (Error (if (run_stderr run =? "")%string
                      then "Command failed with code " ++ code_to_string code
                      else run_stderr run)))
  /\ (forall err, run_end run = SpawnError err -> fst out = inr err).
Proof.
  intros argv run out. unfold out, runNatsCommand. fold argv. fold run. simpl.
  split; [reflexivity|].
  assert (Hok : forall text, inl (A := string) (B := error)
                               (str_or (trim (run_stdout run)) "OK") = inl text ->
                text <> "" /\ (text = trim (run_stdout run)
                               \/ trim (run_stdout run) = "" /\ text = "OK")).
  { intros text H. injection H as <-. split; [now apply str_or_nonempty|].
    unfold str_or. destruct (trim (run_stdout run) =? "")%string eqn:E.
    - right. split; [now apply String.eqb_eq | reflexivity].
    - now left. }
  destruct (run_end run) as [[[|c|c]|]|err] eqn:E; simpl.
  - split; [split; eauto|]. split; [exact Hok|]. split; [|split].
    + intros Hs _. now rewrite (trim_spaces _ Hs).
    + intros Hs _. now rewrite Hs.
    + split; [intros code Hc Hne; injection Hc as <-; now destruct Hne | discriminate].
  - split; [split; [intros (t & H); discriminate | discriminate]|].
    split; [discriminate|]. split; [discriminate|]. split; [discriminate|].
    split; [|discriminate].
    intros code Hc _. injection Hc as <-. unfold str_or.
    now destruct (run_stderr run =? "")%string.
  - split; [split; [intros (t & H); discriminate | discriminate]|].
    split; [discriminate|]. split; [discriminate|]. split; [discriminate|].
    split; [|discriminate].
    intros code Hc _. injection Hc as <-. unfold str_or.
    now destruct (run_stderr run =? "")%string.
  - split; [split; [intros (t & H); discriminate | discriminate]|].
    split; [discriminate|]. split; [discriminate|]. split; [discriminate|].
    split; [|discriminate].
    intros code Hc _. injection Hc as <-. unfold str_or.
    now destruct (run_stderr run =? "")%string.
  - split; [split; [intros (t & H); discriminate | discriminate]|].
    split; [discriminate|]. split; [discriminate|]. split; [discriminate|].
    split; [discriminate|].
    intros e He. now injection He as <-.
Qed.

Lemma nats_command_outcome_witness :
  fst (runNatsCommand Sample.url
         (fun _ _ => {| run_end := Closed (Some 0);
                        run_stdout := String (ascii_of_nat 194)
                                        (String (ascii_of_nat 160)
                                           (String (ascii_of_nat 10) " "));
                        run_stderr := "" |})
         [] ["pub"])
  = inl "OK".
Proof.
  destruct (nats_command_outcome Sample.url
              (fun _ _ => {| run_end := Closed (Some 0);
                             run_stdout := String (ascii_of_nat 194)
                                             (String (ascii_of_nat 160)
                                                (String (ascii_of_nat 10) " "));
                             run_stderr := "" |})
              [] ["pub"]) as (_ & _ & _ & _ & H & _).
  apply H; reflexivity.
Defined.

Lemma header_arguments_length (hs : list (string * string)) :
  List.length (flat_map (fun h => ["-H"; fst h ++ ":" ++ snd h]) hs)
  = (2 * List.length hs)%nat.
Proof.
  induction hs as [|h hs IH]; simpl in *; [reflexivity | lia].
Qed.

(** X14.  Publishing runs the client once, on the subject and with the
    message given and a pair [-H key:value] for every header, in their
    order; an empty list of headers is as none. *)
Theorem publish_arguments (url : string) (cli : nats_cli) (args : PublishArgs) :
  let headers := match pub_headers args with Some hs => hs | None => [] end in
  exists argv,
    snd (publish url cli [] args) = [argv]
    /\ argv = app ["-s"; url; "publish"; pub_subject args; pub_message args]
                  (flat_map (fun h => ["-H"; fst h ++ ":" ++ snd h]) headers)
    /\ subject_of argv = pub_subject args
    /\ List.length argv = (5 + 2 * List.length headers)%nat
    /\ publish url cli []
         {| pub_subject := pub_subject args; pub_message := pub_message args;
            pub_headers := Some headers |}
       = publish url cli [] args.
Proof.
  intro headers. unfold publish, runNatsCommand, subject_of.
  destruct (pub_headers args) as [hs|] eqn:E; subst headers; simpl.
  - eexists. split; [reflexivity|]. split; [reflexivity|]. split; [reflexivity|].
    split; [|reflexivity].
    change (S (S (S (S (S (List.length
              (flat_map (fun h => ["-H"; fst h ++ ":" ++ snd h]) hs))))))
            = (5 + 2 * List.length hs)%nat).
    rewrite header_arguments_length. reflexivity.
  - eexists. repeat split.
Qed.

End NatsCommands.

(** ** Subscriptions *)

Section Subscriptions.

Import Nats Reading.

Lemma append_assoc_string (a b c : string) : (a ++ b) ++ c = a ++ (b ++ c).
Proof.
  induction a as [|x a IH]; simpl; [reflexivity | now rewrite IH].
Qed.

Lemma append_empty_r (a : string) : a ++ "" = a.
Proof.
  induction a as [|x a IH]; simpl; [reflexivity | now rewrite IH].
Qed.

Lemma subscribe_settle_text (delay : Z) (events : list (Z * proc_event)) :
  forall stdout text,
    outcome (subscribe_settle delay events stdout) = inl text -> text <> "".
Proof.
  induction events as [|[t ev] rest IH]; intros stdout text; simpl.
  - intro H. injection H as <-. now apply str_or_nonempty.
  - destruct (delay <=? t); simpl.
    + intro H. injection H as <-. now apply str_or_nonempty.
    + destruct ev as [chunk|code|err]; simpl.
      * apply IH.
      * intro H. injection H as <-. now apply str_or_nonempty.
      * discriminate.
Qed.

Lemma subscribe_settle_error (delay : Z) (events : list (Z * proc_event)) :
  forall stdout err,
    outcome (subscribe_settle delay events stdout) = inr err ->
    exists t, In (t, ErrorEv err) (before_timer delay events).
Proof.
  induction events as [|[t ev] rest IH]; intros stdout err; simpl.
  - discriminate.
  - destruct (delay <=? t); simpl; [discriminate|].
    destruct ev as [chunk|code|e]; simpl.
    + intro H. destruct (IH _ _ H) as (t' & Ht'). exists t'. now right.
    + discriminate.
    + intro H. injection H as <-. exists t. now left.
Qed.

Lemma before_timer_early (delay : Z) (events : list (Z * proc_event)) (t : Z)
      (ev : proc_event) :
  In (t, ev) (before_timer delay events) -> In (t, ev) events /\ t < delay.
Proof.
  induction events as [|[t' ev'] rest IH]; simpl; [intros []|].
  destruct (delay <=? t') eqn:E; simpl; [intros []|].
  apply Z.leb_gt in E.
  intros [H | H].
  - injection H as <- <-. split; [now left | exact E].
  - destruct (IH H) as [Hin Hlt]. split; [now right | exact Hlt].
Qed.

(** X15.  A subscription is settled when its timer runs, at the
    latest.  It is fulfilled with a text that is never empty, and is
    rejected only by an error of the process that comes before the
    timer: running out of time is no failure. *)
Theorem subscribe_settles (url : string) (stream : nats_stream) (args : SubscribeArgs) :
  let delay := setTimeout_delay (num_or (sub_timeout args) 5000) in
  let events := stream (subscribe_argv url args) in
  let promise := subscribe url stream args in
  settled_at promise <= delay
  /\ 1 <= delay <= 2147483647
  /\ (forall text, outcome promise = inl text -> text <> "")
  /\ (forall err, outcome promise = inr err ->
        exists t, In (t, ErrorEv err) events /\ t < delay)
  /\ ((forall t err, ~ In (t, ErrorEv err) events) ->
      exists text, outcome promise = inl text).
Proof.
  intros delay events promise. unfold promise, subscribe. fold delay. fold events.
  split; [apply subscribe_settle_bound|]. split.
  { unfold delay, setTimeout_delay.
    destruct (num_or (sub_timeout args) 5000 <? 1) eqn:E1; simpl; [lia|].
    destruct (2147483647 <? num_or (sub_timeout args) 5000) eqn:E2; [lia|].
    apply Z.ltb_ge in E1, E2. lia. }
  split; [apply subscribe_settle_text|]. split.
  - intros err H. apply subscribe_settle_error in H. destruct H as (t & Ht).
    exists t. now apply before_timer_early.
  - intro Hnone.
    destruct (outcome (subscribe_settle delay events "")) as [text|err] eqn:E; eauto.
    apply subscribe_settle_error in E. destruct E as (t & Ht).
    apply before_timer_early in Ht. destruct (Hnone t err (proj1 Ht)).
Qed.

Lemma subscribe_settle_output (delay : Z) (events : list (Z * proc_event)) :
  forall stdout,
    forallb is_output (before_timer delay events) = true ->
    subscribe_settle delay events stdout
    = {| settled_at := delay;
         outcome := inl (str_or (stdout ++ output_of (before_timer delay events))
                                "No messages received") |}.
Proof.
  induction events as [|[t ev] rest IH]; intros stdout; simpl.
  - intros _. now rewrite append_empty_r.
  - destruct (delay <=? t); simpl.
    + intros _. now rewrite append_empty_r.
    + destruct ev as [chunk|code|err]; unfold is_output at 1; simpl;
        [|discriminate|discriminate].
      intro H. rewrite (IH _ H). now rewrite append_assoc_string.
Qed.

(** X16.  When the process is still running as the timer runs, the
    subscription is fulfilled at that instant with the output received
    so far, as it is, or with [No messages received] when there is
    none. *)
Theorem subscribe_timeout_partial (url : string) (stream : nats_stream)
        (args : SubscribeArgs)
        (Hrunning : forallb is_output
                      (before_timer (setTimeout_delay (num_or (sub_timeout args) 5000))
                         (stream (subscribe_argv url args))) = true) :
  subscribe url stream args
  = {| settled_at := setTimeout_delay (num_or (sub_timeout args) 5000);
       outcome :=
         inl (str_or (output_of
                        (before_timer (setTimeout_delay (num_or (sub_timeout args) 5000))
                           (stream (subscribe_argv url args))))
                     "No messages received") |}.
Proof.
  unfold subscribe. now rewrite (subscribe_settle_output _ _ "" Hrunning).
Qed.

Lemma subscribe_timeout_partial_witness :
  subscribe Sample.url
    (fun _ => [(10, StdoutData "one "); (30, StdoutData "two "); (900, CloseEv (Some 0))])
    {| sub_subject := "events"; sub_count := 5; sub_timeout := 100 |}
  = {| settled_at := 100; outcome := inl "one two " |}.
Proof.
  apply (subscribe_timeout_partial Sample.url
           (fun _ => [(10, StdoutData "one "); (30, StdoutData "two ");
                      (900, CloseEv (Some 0))])
           {| sub_subject := "events"; sub_count := 5; sub_timeout := 100 |}).
  reflexivity.
Defined.

Lemma subscribe_settle_closed (delay : Z) (early : list (Z * proc_event)) (t : Z)
      (code : option Z) (later : list (Z * proc_event)) :
  forall stdout,
    forallb is_output early = true ->
    forallb (fun ev => fst ev <? delay) early = true ->
    t < delay ->
    subscribe_settle delay (early ++ (t, CloseEv code) :: later)%list stdout
    = {| settled_at := t;
         outcome := inl (str_or (trim (stdout ++ output_of early)) "No messages") |}.
Proof.
  induction early as [|[t' ev] early IH]; intros stdout Hout Htime Ht; simpl.
  - replace (delay <=? t) with false by (symmetry; apply Z.leb_gt; lia).
    now rewrite append_empty_r.
  - simpl in Htime. apply andb_true_iff in Htime. destruct Htime as [Ht' Htime].
    apply Z.ltb_lt in Ht'.
    replace (delay <=? t') with false by (symmetry; apply Z.leb_gt; lia).
    simpl in Hout. apply andb_true_iff in Hout. destruct Hout as [Hev Hout].
    destruct ev as [chunk|c|err]; unfold is_output in Hev; simpl in Hev;
      try discriminate.
    rewrite (IH _ Hout Htime Ht). now rewrite append_assoc_string.
Qed.

(** X17.  When the process ends before the timer, after some output
    and nothing else, the subscription is fulfilled at that instant
    with the output less the white space around it, or with
    [No messages] when nothing is left; what the process does later
    counts for nothing. *)
Theorem subscribe_closed_early (url : string) (stream : nats_stream)
        (args : SubscribeArgs) (early later : list (Z * proc_event))
        (t : Z) (code : option Z)
        (Hevents : stream (subscribe_argv url args)
                   = (early ++ (t, CloseEv code) :: later)%list)
        (Hout : forallb is_output early = true)
        (Htime : forallb (fun ev => fst ev
                                    <? setTimeout_delay (num_or (sub_timeout args) 5000))
                         early = true)
        (Ht : t < setTimeout_delay (num_or (sub_timeout args) 5000)) :
  subscribe url stream args
  = {| settled_at := t;
       outcome := inl (str_or (trim (output_of early)) "No messages") |}.
Proof.
  unfold subscribe. rewrite Hevents.
  now rewrite (subscribe_settle_closed _ early t code later "" Hout Htime Ht).
Qed.

Lemma subscribe_closed_early_witness :
  subscribe Sample.url
    (fun _ => [(10, StdoutData " one "); (30, CloseEv (Some 0)); (40, StdoutData "two")])
    {| sub_subject := "events"; sub_count := 1; sub_timeout := 100 |}
  = {| settled_at := 30; outcome := inl "one" |}.
Proof.
  apply (subscribe_closed_early Sample.url
           (fun _ => [(10, StdoutData " one "); (30, CloseEv (Some 0));
                      (40, StdoutData "two")])
           {| sub_subject := "events"; sub_count := 1; sub_timeout := 100 |}
           [(10, StdoutData " one ")] [(40, StdoutData "two")] 30 (Some 0));
    reflexivity.
Defined.

(** A process that prints a no-break space (C2 A0) and ends: nothing is
    left of the output, and the subscription answers [No messages]. *)
Example subscribe_closed_after_nbsp :
  subscribe Sample.url
    (fun _ => [(10, StdoutData (String (ascii_of_nat 194) (String (ascii_of_nat 160) "")));
               (30, CloseEv (Some 0))])
    {| sub_subject := "events"; sub_count := 1; sub_timeout := 100 |}
  = {| settled_at := 30; outcome := inl "No messages" |}.
Proof. reflexivity. Qed.

End Subscriptions.

(** ** The agent tools of the bus server *)

Section BusTools.

Import Nats Reading.

(** X18.  A direct message is published on the subject on which its
    addressee, and no agent of another id, checks for direct messages,
    and never on the subject of the broadcasts; a broadcast is
    published on the subject on which every agent checks for
    broadcasts. *)
Theorem subjects_agree (url : string) (cli : nats_cli) (now : Z)
        (dm : AgentDMArgs) (bc : AgentBroadcastArgs) (receiver : AgentCheckMessagesArgs) :
  let inbox := subscribe_argv url (fst (check_subscriptions receiver)) in
  let common := subscribe_argv url (snd (check_subscriptions receiver)) in
  exists dm_argv bc_argv,
    snd (agentDM url cli now dm) = [dm_argv]
    /\ snd (agentBroadcast url cli now bc) = [bc_argv]
    /\ (subject_of dm_argv = subject_of inbox <-> dm_to dm = cm_agent_id receiver)
    /\ subject_of dm_argv <> subject_of common
    /\ subject_of bc_argv = subject_of common
    /\ subject_of bc_argv <> subject_of inbox.
Proof.
  intros inbox common.
  unfold agentDM, agentBroadcast, bind_publish, publish, runNatsCommand.
  cbn [pub_headers pub_subject pub_message].
  do 2 eexists.
  split; [destruct (run_end _) as [[[|c|c]|]|err]; reflexivity|].
  split; [destruct (run_end _) as [[[|c|c]|]|err]; reflexivity|].
  unfold subject_of, inbox, common. simpl.
  split; [|split; [|split]]; try discriminate; try reflexivity.
  split.
  - intro H. now injection H.
  - now intros ->.
Qed.

(** The publish that an agent tool makes, and what the tool answers. *)
Lemma bind_publish_spec (url : string) (cli : nats_cli) (subject payload answer : string) :
  let argv := ["-s"; url; "publish"; subject; payload] in
  let out := bind_publish
               (publish url cli [] {| pub_subject := subject; pub_message := payload;
                                      pub_headers := None |}) answer in
  snd out = [argv]
  /\ (fst out = inl answer <-> run_end (cli [] argv) = Closed (Some 0))
  /\ (forall code, run_end (cli [] argv) = Closed code -> code <> Some 0 ->
        fst out
        = inr (Error (if (run_stderr (cli [] argv) =? "")%string
                      then "Command failed with code " ++ code_to_string code
                      else run_stderr (cli [] argv))))
  /\ (forall err, run_end (cli [] argv) = SpawnError err -> fst out = inr err).
Proof.
  intros argv out. unfold out, bind_publish, publish, runNatsCommand.
  cbn [pub_headers pub_subject pub_message]. fold argv.
  destruct (run_end (cli [] argv)) as [[[|c|c]|]|err] eqn:E; simpl.
  - split; [reflexivity|]. split; [split; reflexivity|].
    split; [intros code Hc Hne; injection Hc as <-; now destruct Hne | discriminate].
  - split; [reflexivity|]. split; [split; discriminate|]. split; [|discriminate].
    intros code Hc _. injection Hc as <-. unfold str_or.
    now destruct (run_stderr (cli [] argv) =? "")%string.
  - split; [reflexivity|]. split; [split; discriminate|]. split; [|discriminate].
    intros code Hc _. injection Hc as <-. unfold str_or.
    now destruct (run_stderr (cli [] argv) =? "")%string.
  - split; [reflexivity|]. split; [split; discriminate|]. split; [|discriminate].
    intros code Hc _. injection Hc as <-. unfold str_or.
    now destruct (run_stderr (cli [] argv) =? "")%string.
  - split; [reflexivity|]. split; [split; discriminate|]. split; [discriminate|].
    intros e He. now injection He as <-.
Qed.

(** X19.  Each agent tool of the bus server that sends something runs
    the client once, to publish on the subject of the tool, and gives
    its confirmation exactly when that process exits with code 0; a
    direct message is confirmed so whoever the addressee is. *)
Theorem bus_tools_publish_once (url : string) (cli : nats_cli) (now : Z)
        (random : entropy) (reg : AgentRegisterArgs) (dereg : AgentDeregisterArgs)
        (bc : AgentBroadcastArgs) (dm : AgentDMArgs) (hb : AgentHeartbeatArgs) :
  let published (out : (string + error) * list (list string)) (subject answer : string) :=
    exists payload,
      snd out = [["-s"; url; "publish"; subject; payload]]
      /\ (fst out = inl answer <->
          run_end (cli [] ["-s"; url; "publish"; subject; payload]) = Closed (Some 0))
      /\ (fst out <> inl answer -> exists err, fst out = inr err) in
  published (agentRegister url cli now random reg) "agents.register"
    (JSON_stringify
       (JObj [("agent_id", JStr (generateAgentId random (reg_name reg)));
              ("message", JStr "Registered. Use this agent_id for all subsequent calls.")]))
  /\ published (agentDeregister url cli now dereg) "agents.deregister" "Deregistered"
  /\ published (agentBroadcast url cli now bc) "agents.broadcast" "Broadcast sent"
  /\ published (agentDM url cli now dm) ("agents.dm." ++ dm_to dm)
       ("DM sent to " ++ dm_to dm)
  /\ published (agentHeartbeat url cli now hb) ("agents.heartbeat." ++ hb_agent_id hb)
       "Heartbeat sent".
Proof.
  intro published.
  assert (Hgen : forall subject payload answer,
             published (bind_publish
                          (publish url cli [] {| pub_subject := subject;
                                                 pub_message := payload;
                                                 pub_headers := None |}) answer)
                       subject answer).
  { intros subject payload answer. exists payload.
    destruct (bind_publish_spec url cli subject payload answer) as (Hlog & Hok & _).
    split; [exact Hlog|]. split; [exact Hok|].
    intro Hne. destruct (fst (bind_publish _ answer)) as [text|err] eqn:E; [|eauto].
    exfalso. apply Hne. f_equal.
    unfold bind_publish in E.
    destruct (publish url cli [] _) as [[t|e] log]; simpl in E; congruence. }
  repeat split; apply Hgen.
Qed.

End BusTools.

(** ** The handler of the bus server and the check for messages *)

Section BusHandler.

Import Nats Reading.

Ltac tool_named E :=
  apply String.eqb_eq in E; subst.

Ltac known_tool H :=
  exfalso; apply H; simpl; tauto.

Lemma respond_not_zod (r : string + error) : respond r <> IsError ZodError.
Proof.
  destruct r; discriminate.
Qed.

Ltac spawned_one :=
  split; [let H := fresh in intro H; known_tool H|];
  split; [let H := fresh in intro H; destruct (respond_not_zod _ H)|];
  split; [simpl; lia|];
  split; [let H := fresh in simpl; intro H; discriminate H|];
  let H := fresh in
  intros ? H; simpl in H; destruct H as [<- | []]; reflexivity.

Ltac spawned_none :=
  split; [let H := fresh in intro H; known_tool H|];
  split; [reflexivity|];
  split; [simpl; lia|];
  split; [let H := fresh in simpl; intro H; discriminate H|];
  let H := fresh in intros ? H; destruct H.

Lemma runNatsCommand_log (url : string) (cli : nats_cli) (args : list string) :
  snd (runNatsCommand url cli [] args) = [("-s" :: url :: args)%list].
Proof.
  reflexivity.
Qed.

Lemma bind_publish_log {A : Type} (r : (string + error) * list (list string)) (k : A) :
  snd (bind_publish r k) = snd r.
Proof.
  destruct r as [[text|err] log]; reflexivity.
Qed.

(** X20.  The handler of the bus server answers every request.  An
    unknown tool and arguments that the schema of the tool refuses are
    errors for which no process is spawned; a request spawns at most
    two processes, and two only to check for messages; every process
    is the client, run with the server first among its arguments. *)
Theorem nats_handler (url : string) (cli : nats_cli) (stream : nats_stream)
        (now : Z) (random : entropy) (tool : string) (args : json) :
  let out := call_tool url cli stream now random tool args in
  (~ In tool nats_tools ->
   out = (IsError (Thrown (Error ("Unknown tool: " ++ tool))), []))
  /\ (fst out = IsError ZodError -> snd out = [])
  /\ (List.length (snd out) <= 2)%nat
  /\ (List.length (snd out) = 2%nat -> tool = "nats_agent_check_messages")
  /\ (forall argv, In argv (snd out) -> firstn 2 argv = ["-s"; url]).
Proof.
  intro out. unfold out, call_tool.
  destruct (tool =? "nats_publish")%string eqn:E1.
  { tool_named E1. destruct (PublishSchema args) as [a|]; cbn [fst snd];
      [unfold publish; rewrite runNatsCommand_log; spawned_one | spawned_none]. }
  destruct (tool =? "nats_subscribe")%string eqn:E2.
  { tool_named E2. destruct (SubscribeSchema args) as [a|]; cbn [fst snd];
      [spawned_one | spawned_none]. }
  destruct (tool =? "nats_request")%string eqn:E3.
  { tool_named E3. destruct (RequestSchema args) as [a|]; cbn [fst snd];
      [unfold natsRequest; rewrite runNatsCommand_log; spawned_one | spawned_none]. }
  destruct (tool =? "nats_agent_register")%string eqn:E4.
  { tool_named E4. destruct (AgentRegisterSchema args) as [a|]; cbn [fst snd];
      [unfold agentRegister; rewrite bind_publish_log; unfold publish;
       rewrite runNatsCommand_log; spawned_one | spawned_none]. }
  destruct (tool =? "nats_agent_deregister")%string eqn:E5.
  { tool_named E5. destruct (AgentDeregisterSchema args) as [a|]; cbn [fst snd];
      [unfold agentDeregister; rewrite bind_publish_log; unfold publish;
       rewrite runNatsCommand_log; spawned_one | spawned_none]. }
  destruct (tool =? "nats_agent_broadcast")%string eqn:E6.
  { tool_named E6. destruct (AgentBroadcastSchema args) as [a|]; cbn [fst snd];
      [unfold agentBroadcast; rewrite bind_publish_log; unfold publish;
       rewrite runNatsCommand_log; spawned_one | spawned_none]. }
  destruct (tool =? "nats_agent_dm")%string eqn:E7.
  { tool_named E7. destruct (AgentDMSchema args) as [a|]; cbn [fst snd];
      [unfold agentDM; rewrite bind_publish_log; unfold publish;
       rewrite runNatsCommand_log; spawned_one | spawned_none]. }
  destruct (tool =? "nats_agent_check_messages")%string eqn:E8.
  { tool_named E8. destruct (AgentCheckMessagesSchema args) as [a|]; cbn [fst snd];
      [|spawned_none].
    split; [intro H; known_tool H|].
    split; [intro H; destruct (respond_not_zod _ H)|].
    split; [simpl; lia|]. split; [reflexivity|].
    intros argv H. simpl in H. destruct H as [<- | [<- | []]]; reflexivity. }
  destruct (tool =? "nats_agent_heartbeat")%string eqn:E9.
  { tool_named E9. destruct (AgentHeartbeatSchema args) as [a|]; cbn [fst snd];
      [unfold agentHeartbeat; rewrite bind_publish_log; unfold publish;
       rewrite runNatsCommand_log; spawned_one | spawned_none]. }
  cbn [fst snd]. split; [reflexivity|]. split; [reflexivity|].
  split; [simpl; lia|]. split; [discriminate|]. intros argv [].
Qed.

(** X21.  A check for messages whose two subscriptions are fulfilled
    answers with a text that is never empty: [No messages] exactly when
    neither subscription brought a message, and otherwise a text that
    begins with the block of the direct messages when there are some
    and with the block of the broadcasts when there are only those. *)
Theorem check_messages_answer (url : string) (stream : nats_stream)
        (args : AgentCheckMessagesArgs) (d b : string)
        (Hd : outcome (subscribe url stream (fst (check_subscriptions args))) = inl d)
        (Hb : outcome (subscribe url stream (snd (check_subscriptions args))) = inl b) :
  exists text,
    outcome (agentCheckMessages url stream args) = inl text
    /\ text <> ""
    /\ (text = "No messages" <-> is_message d = false /\ is_message b = false)
    /\ (is_message d = true -> String.prefix ("[DMs]" ++ nl ++ d) text = true)
    /\ (is_message d = false -> is_message b = true ->
        text = "[Broadcasts]" ++ nl ++ b).
Proof.
  exists (render_messages d b).
  split.
  { unfold agentCheckMessages. cbn [check_subscriptions fst snd] in *.
    unfold promise_all2. cbn [outcome]. rewrite Hd, Hb. reflexivity. }
  rewrite render_messages_cases.
  destruct (is_message d) eqn:Ed, (is_message b) eqn:Eb.
  - split; [discriminate|]. split; [split; [discriminate | intros [H _]; discriminate]|].
    split; [|discriminate]. intros _. apply prefix_app. eexists.
    rewrite !append_assoc_string. reflexivity.
  - split; [discriminate|]. split; [split; [discriminate | intros [H _]; discriminate]|].
    split; [|discriminate]. intros _. apply prefix_app. exists "".
    now rewrite append_empty_r.
  - split; [discriminate|]. split; [split; [discriminate | intros [_ H]; discriminate]|].
    split; [discriminate | reflexivity].
  - split; [discriminate|]. split; [tauto|]. split; discriminate.
Qed.

Lemma check_messages_answer_witness :
  exists text,
    outcome (agentCheckMessages Sample.url Sample.one_dm Sample.check_200) = inl text
    /\ text <> "" /\ String.prefix ("[DMs]" ++ nl ++ "ping") text = true.
Proof.
  destruct (check_messages_answer Sample.url Sample.one_dm Sample.check_200
              "ping" "No messages" eq_refl eq_refl)
    as (text & H1 & H2 & _ & H3 & _).
  exists text. split; [exact H1|]. split; [exact H2|]. apply H3. reflexivity.
Defined.

End BusHandler.

(** ** Requests to publish, and the ids of the listed agents *)

Section RequestsAndIds.

Import Reading.

Lemma z_header_array_json (hs : list (string * string)) :
  Nats.z_header_array (map header_json hs) = Some hs.
Proof.
  induction hs as [|[k v] hs IH]; [reflexivity|].
  simpl. simpl in IH. now rewrite IH.
Qed.

Lemma z_header_array_refuses (items : list json) (j : json) :
  In j items -> Nats.z_header j = None -> Nats.z_header_array items = None.
Proof.
  induction items as [|i items IH]; [intros []|].
  intros [-> | Hin] Hj; simpl.
  - now rewrite Hj.
  - rewrite (IH Hin Hj). now destruct (Nats.z_header i).
Qed.

(** X22.  The schema of [nats_publish] reads a request back as the
    arguments it was written from, headers included and in their
    order; it refuses a request as a whole when one of its headers
    is not an object with a string [key] and a string [value]. *)
Theorem publish_schema_round_trip (a : Nats.PublishArgs) :
  Nats.PublishSchema (publish_request a) = Some a
  /\ (forall fields items j,
         lookup "headers" fields = Some (JArr items) -> In j items ->
         Nats.z_header j = None ->
         Nats.PublishSchema (JObj fields) = None).
Proof.
  split.
  - destruct a as [subject msg [hs|]]; unfold publish_request, Nats.PublishSchema; simpl.
    + now rewrite z_header_array_json.
    + reflexivity.
  - intros fields items j Hh Hin Hj. unfold Nats.PublishSchema.
    rewrite Hh. simpl. rewrite (z_header_array_refuses items j Hin Hj).
    destruct (lookup "subject" fields) as [[]|]; try reflexivity.
    destruct (lookup "message" fields) as [[]|]; reflexivity.
Qed.

Lemma or_else_truthy (v : value) (fallback : json) :
  truthy_json fallback = true -> truthy_json (or_else v fallback) = true.
Proof.
  intro H. unfold or_else. destruct v as [j|]; [|exact H].
  destruct (truthy_json j) eqn:E; [exact E | exact H].
Qed.

(** X23.  Every listed record has an id and a name that are truthy,
    so never the empty string: a file that gives no [agent_id], or an
    empty one, is listed under the id [unknown]. *)
Theorem listed_ids_truthy (dir : Agents.directory) (now : Z) (includeStale : bool)
        (a : Agents.AgentInfo) (Hlisted : In a (Agents.getActiveAgents dir now includeStale)) :
  truthy_json (Agents.id a) = true
  /\ truthy_json (Agents.name a) = true
  /\ Agents.id a <> JStr ""
  /\ exists entries f fields_or_not,
       dir = Some entries /\ In f entries /\ Agents.f_data f = Some fields_or_not
       /\ Agents.agent_of_file now includeStale f = Some a
       /\ (prop fields_or_not "agent_id" = Some None -> Agents.id a = JStr "unknown")
       /\ (prop fields_or_not "agent_id" = Some (Some (JStr "")) ->
           Agents.id a = JStr "unknown").
Proof.
  destruct dir as [entries|]; [|destruct Hlisted].
  apply In_getActiveAgents in Hlisted. destruct Hlisted as (f & Hin & _ & E).
  pose proof E as E'. apply agent_of_file_Some in E'.
  destruct E' as (m & data & a_id & a_name & t_s & t_w & t_p & pane
                  & _ & Hd & E1 & E2 & _ & _ & _ & _ & _ & ->).
  simpl Agents.id. simpl Agents.name.
  assert (Hid : truthy_json (or_else a_id (JStr "unknown")) = true)
    by now apply or_else_truthy.
  split; [exact Hid|]. split; [now apply or_else_truthy|]. split.
  - intro H. rewrite H in Hid. discriminate.
  - exists entries, f, data. repeat split; auto.
    + intro H. rewrite E1 in H. now injection H as ->.
    + intro H. rewrite E1 in H. now injection H as ->.
Qed.

Lemma listed_ids_truthy_witness :
  Agents.id {| Agents.id := JStr "unknown"; Agents.name := JStr "unknown";
               Agents.tmux_pane := "main:9.9"; Agents.is_stale := false |}
  <> JStr ""
  /\ Agents.agentDM
       (Some [{| Agents.f_name := "claude_agent_x.json"; Agents.f_mtimeMs := Some Sample.t0;
                 Agents.f_data := Some (JObj (Sample.pane_fields "main" "9" "9")) |}])
       Sample.t0 Sample.snd_ok
       {| Agents.dm_agent_id := "alice-0a1b2c3d"; Agents.dm_to := "unknown";
          Agents.dm_message := "ping" |}
     = ("DM sent to unknown", [Agents.SndCall "main:9.9" "[DM from alice] ping"]).
Proof.
  split; [|reflexivity].
  apply (listed_ids_truthy
           (Some [{| Agents.f_name := "claude_agent_x.json";
                     Agents.f_mtimeMs := Some Sample.t0;
                     Agents.f_data := Some (JObj (Sample.pane_fields "main" "9" "9")) |}])
           Sample.t0 false).
  simpl. tauto.
Defined.

End RequestsAndIds.
